(** * CyberDNA simulation (cyberdna1.py): a shallow embedding and its properties

    The script is a Streamlit page.  Its logic is a three-field range check
    ([detect_anomalies]) over a sample drawn by [simulate_behavior], a
    scripted response ([show_threat_response]) and a cycle counter kept in
    the session state and advanced by one script run per cycle
    ([run_simulation]).

    Modelling choices:
    - Python integers are [Z].
    - A Python [dict] is an insertion-ordered association list with the
      update-in-place or append behaviour of [d[k] = v] ([Dict.set]); order
      matters because the dictionaries are displayed as tables and JSON.
    - [random.randint] draws from an explicit entropy stream that is threaded
      through the generator.
    - A script run is a computation over a [World] (session state, entropy,
      rendered output) that can stop with an exception ([KeyError], a missing
      session attribute, or the rerun request raised by [st.rerun()]); state
      changes made before the exception persist, as they do in Streamlit.
    - Every Streamlit call that draws, and every [time.sleep], is recorded
      in order as a [UiEvent].  The clock and the buttons are inputs of a
      run.  A run goes to its end or to its rerun request; the page
      configuration done when the module is loaded is left out. *)

From Stdlib Require Import ZArith List String Ascii Bool Lia DecimalString.
Import ListNotations.
Local Open Scope Z_scope.
Local Open Scope string_scope.

(** ** Python dictionaries *)

Module Dict.

Definition t (V : Type) : Type := list (string * V).

Definition empty {V : Type} : t V := [].

(** [d[k]] as a partial lookup: [None] is where Python raises KeyError. *)
Fixpoint get {V : Type} (d : t V) (k : string) : option V :=
  match d with
  | [] => None
  | (k', v) :: rest => if String.eqb k k' then Some v else get rest k
  end.

(** [k in d] *)
Definition mem {V : Type} (d : t V) (k : string) : bool :=
  match get d k with Some _ => true | None => false end.

(** [d[k] = v]: an existing key keeps its position, a new key goes last. *)
Fixpoint set {V : Type} (d : t V) (k : string) (v : V) : t V :=
  match d with
  | [] => [(k, v)]
  | (k', v') :: rest =>
      if String.eqb k k' then (k', v) :: rest else (k', v') :: set rest k v
  end.

Definition keys {V : Type} (d : t V) : list string := map fst d.

(** [d.items()] *)
Definition items {V : Type} (d : t V) : list (string * V) := d.

(** Truth value of a dictionary: [if d:] holds for a non-empty one. *)
Definition truthy {V : Type} (d : t V) : bool :=
  match d with [] => false | _ :: _ => true end.

End Dict.

(** ** Exceptions and results *)

Inductive exn : Type :=
| KeyError (key : string)
| AttributeError (name : string)
| RerunException.

Inductive result (A : Type) : Type :=
| Ok (a : A)
| Raise (e : exn).
Arguments Ok {A} a.
Arguments Raise {A} e.

(** [values[k]] *)
Definition subscript {V : Type} (d : Dict.t V) (k : string) : result V :=
  match Dict.get d k with
  | Some v => Ok v
  | None => Raise (KeyError k)
  end.

(** ** Formatting *)

(** [str(n)] for an integer, as an f-string field renders it. *)
Definition str (n : Z) : string := NilZero.string_of_int (Z.to_int n).

(** ** Baseline and anomaly detection *)

Definition baseline : Dict.t (Z * Z) :=
  [ ("cpu_usage", (10, 15));
    ("network_activity", (20, 40));
    ("file_access_rate", (0, 3)) ].

(** The dictionary stored for an anomalous metric. *)
Record Anomaly : Type := mkAnomaly {
  value : Z;
  expected_range : string
}.

(** The chained comparison [low <= v <= high]. *)
Definition in_range (low v high : Z) : bool := ((low <=? v) && (v <=? high))%Z.

(** The body of the [for k, (low, high) in baseline.items()] loop, run over
    the remaining items with the dictionary built so far. *)
Fixpoint detect_loop (items : list (string * (Z * Z))) (values : Dict.t Z)
    (anomalies : Dict.t Anomaly) : result (Dict.t Anomaly) :=
  match items with
  | [] => Ok anomalies
  | (k, (low, high)) :: rest =>
      match subscript values k with
      | Raise e => Raise e
      | Ok v =>
          if negb (in_range low v high)
          then detect_loop rest values
                 (Dict.set anomalies k
                    {| value := v;
                       expected_range := str low ++ "-" ++ str high |})
          else detect_loop rest values anomalies
      end
  end.

Definition detect_anomalies (values : Dict.t Z) : result (Dict.t Anomaly) :=
  detect_loop (Dict.items baseline) values Dict.empty.

(** ** Entropy and the sample generator *)

(** The entropy source: an unbounded stream of raw integers.  Nothing is
    assumed of the stream, so every statement below that quantifies over it
    covers every behaviour of the generator. *)
Definition RandomState : Type := nat -> Z.

(** [random.randint(a, b)] for [a <= b] (the only way the script calls it):
    the next raw integer is folded into [a..b] and the stream advances. *)
Definition randint (a b : Z) (g : RandomState) : Z * RandomState :=
  (a + (g 0%nat) mod (b - a + 1), fun n => g (S n)).

Definition simulate_behavior (cycle total : Z) (g : RandomState)
  : Dict.t Z * RandomState :=
  if (cycle =? total - 1)%Z then
    ([ ("cpu_usage", 12);
       ("network_activity", 30);
       ("file_access_rate", 1) ], g)
  else
    let '(cpu, g1) := randint 5 45 g in
    let '(net, g2) := randint 10 50 g1 in
    let '(file, g3) := randint 0 7 g2 in
    ([ ("cpu_usage", cpu);
       ("network_activity", net);
       ("file_access_rate", file) ], g3).

(** ** Text helpers used by the tables *)

Definition is_upper (c : ascii) : bool :=
  (65 <=? nat_of_ascii c)%nat && (nat_of_ascii c <=? 90)%nat.

Definition is_lower (c : ascii) : bool :=
  (97 <=? nat_of_ascii c)%nat && (nat_of_ascii c <=? 122)%nat.

Definition to_upper (c : ascii) : ascii :=
  if is_lower c then ascii_of_nat (nat_of_ascii c - 32) else c.

Definition to_lower (c : ascii) : ascii :=
  if is_upper c then ascii_of_nat (nat_of_ascii c + 32) else c.

(** [s.replace(old, new)] for one-character [old] and [new]. *)
Fixpoint replace (old new : ascii) (s : string) : string :=
  match s with
  | EmptyString => EmptyString
  | String c rest =>
      String (if Ascii.eqb c old then new else c) (replace old new rest)
  end.

(** [s.title()] on ASCII text: a letter that follows a letter is lowered,
    any other letter is raised.  The metric names are ASCII. *)
Fixpoint title_from (prev_cased : bool) (s : string) : string :=
  match s with
  | EmptyString => EmptyString
  | String c rest =>
      if is_upper c || is_lower c
      then String (if prev_cased then to_lower c else to_upper c)
                  (title_from true rest)
      else String c (title_from false rest)
  end.

Definition title (s : string) : string := title_from false s.

(** [sub in s] for strings. *)
Fixpoint contains (sub s : string) : bool :=
  if String.prefix sub s then true
  else match s with
       | EmptyString => false
       | String _ rest => contains sub rest
       end.

(** ** The rendered page *)

(** Values handed to the display functions. *)
#[local] Set Warnings "-register-all".
Inductive pyval : Type :=
| PInt (n : Z)
| PStr (s : string)
| PDict (entries : list (string * pyval)).

Definition pyval_of_values (values : Dict.t Z) : pyval :=
  PDict (map (fun '(k, v) => (k, PInt v)) values).

Definition pyval_of_anomaly (a : Anomaly) : pyval :=
  PDict [ ("value", PInt (value a));
          ("expected_range", PStr (expected_range a)) ].

Definition pyval_of_anomalies (anomalies : Dict.t Anomaly) : pyval :=
  PDict (map (fun '(k, a) => (k, pyval_of_anomaly a)) anomalies).

Inductive Container : Type :=
| Main
| Column (i : nat)
| Expander (label : string)
| Placeholder.

Inductive Element : Type :=
| Title (text : string)
| Markdown (text : string)
| ErrorBox (text : string)
| SuccessBox (text : string)
| WarningBox (text : string)
| InfoBox (text : string)
| Table (rows : list pyval)
| Json (body : pyval)
| Metric (label : string) (v : pyval)
| Button (label : string) (disabled : bool).

(** What a script run does that is visible from outside, in order. *)
Inductive UiEvent : Type :=
| Render (place : Container) (what : Element)
| Sleep (seconds : Z).

(** ** Session state, world and the script monad *)

(** [st.session_state]: an attribute that was never assigned is [None]. *)
Record SessionState : Type := mkSession {
  simulation_running : option bool;
  cycle : option Z;
  total_cycles : option Z
}.

Definition empty_session : SessionState :=
  {| simulation_running := None; cycle := None; total_cycles := None |}.

Record World : Type := mkWorld {
  session_state : SessionState;
  random : RandomState;
  ui : list UiEvent
}.

(** What the host supplies to one script run: which button was pressed
    and the formatted reading of the clock. *)
Record Inputs : Type := mkInputs {
  start_clicked : bool;
  reset_clicked : bool;
  now : string
}.

Definition Script (A : Type) : Type := World -> result A * World.

Definition ret {A : Type} (a : A) : Script A := fun w => (Ok a, w).

Definition bind {A B : Type} (c : Script A) (k : A -> Script B) : Script B :=
  fun w =>
    match c w with
    | (Ok a, w') => k a w'
    | (Raise e, w') => (Raise e, w')
    end.

Declare Scope script_scope.
Delimit Scope script_scope with script.
Notation "x <- c ;; k" := (bind c (fun x => k))
  (at level 61, c at next level, right associativity) : script_scope.
Notation "c ;; k" := (bind c (fun _ => k))
  (at level 61, right associativity) : script_scope.
Local Open Scope script_scope.

Definition raise {A : Type} (e : exn) : Script A := fun w => (Raise e, w).

Definition lift {A : Type} (r : result A) : Script A := fun w => (r, w).

Definition emit (e : UiEvent) : Script unit :=
  fun w =>
    (Ok tt, {| session_state := session_state w;
               random := random w;
               ui := (ui w ++ [e])%list |}).

Definition render (place : Container) (what : Element) : Script unit :=
  emit (Render place what).

(** [time.sleep(n)] *)
Definition sleep (seconds : Z) : Script unit := emit (Sleep seconds).

Definition read_attr {A : Type} (name : string)
    (field : SessionState -> option A) : Script A :=
  fun w =>
    match field (session_state w) with
    | Some a => (Ok a, w)
    | None => (Raise (AttributeError name), w)
    end.

Definition write_session (f : SessionState -> SessionState) : Script unit :=
  fun w =>
    (Ok tt, {| session_state := f (session_state w);
               random := random w;
               ui := ui w |}).

Definition get_simulation_running : Script bool :=
  read_attr "simulation_running" simulation_running.
Definition get_cycle : Script Z := read_attr "cycle" cycle.
Definition get_total_cycles : Script Z := read_attr "total_cycles" total_cycles.

Definition set_simulation_running (b : bool) : Script unit :=
  write_session (fun s =>
    {| simulation_running := Some b;
       cycle := cycle s;
       total_cycles := total_cycles s |}).

Definition set_cycle (c : Z) : Script unit :=
  write_session (fun s =>
    {| simulation_running := simulation_running s;
       cycle := Some c;
       total_cycles := total_cycles s |}).

Definition set_total_cycles (t : Z) : Script unit :=
  write_session (fun s =>
    {| simulation_running := simulation_running s;
       cycle := cycle s;
       total_cycles := Some t |}).

(** Drawing from the process-wide generator. *)
Definition with_random {A : Type} (f : RandomState -> A * RandomState)
  : Script A :=
  fun w =>
    let '(a, g) := f (random w) in
    (Ok a, {| session_state := session_state w; random := g; ui := ui w |}).

(** [st.button(label, disabled=...)]: the widget is drawn, and the call
    returns whether it was pressed; a disabled button cannot be pressed. *)
Definition button (place : Container) (label : string) (disabled : bool)
    (clicked : bool) : Script bool :=
  render place (Button label disabled) ;;
  ret (clicked && negb disabled).

(** [st.rerun()] stops the run; the host starts the script again. *)
Definition rerun : Script unit := raise RerunException.

Fixpoint for_each {A : Type} (body : A -> Script unit) (l : list A)
  : Script unit :=
  match l with
  | [] => ret tt
  | x :: rest => body x ;; for_each body rest
  end.

(** [enumerate(l)] *)
Definition enumerate {A : Type} (l : list A) : list (Z * A) :=
  combine (map Z.of_nat (seq 0 (List.length l))) l.

(** ** Display functions *)

Definition display_metrics (values : Dict.t Z) (anomalies : Dict.t Anomaly)
  : Script unit :=
  (if Dict.mem anomalies "cpu_usage"
   then v <- lift (subscript values "cpu_usage") ;;
        render (Column 1) (ErrorBox ("🔴 CPU Usage: " ++ str v ++ "%"))
   else v <- lift (subscript values "cpu_usage") ;;
        render (Column 1) (SuccessBox ("✅ CPU Usage: " ++ str v ++ "%"))) ;;
  (if Dict.mem anomalies "network_activity"
   then v <- lift (subscript values "network_activity") ;;
        render (Column 2)
          (ErrorBox ("🔴 Network Activity: " ++ str v ++ " Mbps"))
   else v <- lift (subscript values "network_activity") ;;
        render (Column 2)
          (SuccessBox ("✅ Network Activity: " ++ str v ++ " Mbps"))) ;;
  (if Dict.mem anomalies "file_access_rate"
   then v <- lift (subscript values "file_access_rate") ;;
        render (Column 3)
          (ErrorBox ("🔴 File Access Rate: " ++ str v ++ "/sec"))
   else v <- lift (subscript values "file_access_rate") ;;
        render (Column 3)
          (SuccessBox ("✅ File Access Rate: " ++ str v ++ "/sec"))).

Definition display_anomalies (anomalies : Dict.t Anomaly) : Script unit :=
  if Dict.truthy anomalies then
    render Main (WarningBox "⚠️ **Anomalies Detected:**") ;;
    let anomaly_data :=
      map (fun '(key, details) =>
             PDict [ ("Metric", PStr (title (replace "_" " " key)));
                     ("Current Value", PInt (value details));
                     ("Expected Range", PStr (expected_range details)) ])
          (Dict.items anomalies) in
    render Main (Table anomaly_data)
  else
    render Main (InfoBox "✅ **All systems normal. No threats detected.**").

Definition response_steps : list string :=
  [ "🔍 Analyzing threat patterns...";
    "🛡️ Isolating affected systems...";
    "🔧 Rolling back malicious changes...";
    "✅ System healed and secured!" ].

Definition show_threat_response : Script unit :=
  render Main (ErrorBox "🚨 **Threat Detected! Initiating Response...**") ;;
  for_each
    (fun '(i, step) =>
       (if (i <? Z.of_nat (List.length response_steps) - 1)%Z
        then render Placeholder (WarningBox step)
        else render Placeholder (SuccessBox step)) ;;
       sleep 1)
    (enumerate response_steps).

(** ** The page script *)

Definition nl : string := String "010"%char "".
Definition dq : string := String "034"%char "".

Definition about_text : string :=
  nl ++
  "        This CyberDNA simulation demonstrates:" ++ nl ++
  "        " ++ nl ++
  "        🔍 **Real-time System Monitoring**: Tracks CPU usage, network activity, and file access rates" ++ nl ++
  "        " ++ nl ++
  "        🚨 **Anomaly Detection**: Identifies when system metrics exceed normal baseline ranges" ++ nl ++
  "        " ++ nl ++
  "        🛡️ **Automated Response**: Shows how cybersecurity systems can automatically contain and neutralize threats" ++ nl ++
  "        " ++ nl ++
  "        📊 **Visual Feedback**: Provides clear visual indicators of system health and threat status" ++ nl ++
  "        " ++ nl ++
  "        Click **" ++ dq ++ "Start Simulation" ++ dq ++ "** to begin the demonstration." ++ nl ++
  "        ".

(** The record shown under "Detailed System Data". *)
Definition detail_record (timestamp : string) (c : Z) (values : Dict.t Z)
    (anomalies : Dict.t Anomaly) : pyval :=
  PDict [ ("timestamp", PStr timestamp);
          ("cycle", PInt (c + 1));
          ("metrics", pyval_of_values values);
          ("anomalies", if Dict.truthy anomalies
                        then pyval_of_anomalies anomalies
                        else PStr "None detected") ].

(** [summary_data]; both numeric fields read [total_cycles]. *)
Definition summary_data (total : Z) : Dict.t pyval :=
  [ ("Total Cycles", PInt total);
    ("Threats Detected", PInt (total - 1));
    ("Response Time", PStr "< 3 seconds per threat");
    ("System Status", PStr "Secure ✅") ].

Definition baseline_display : list pyval :=
  map (fun '(metric, (low, high)) =>
         PDict [ ("Metric", PStr (title (replace "_" " " metric)));
                 ("Normal Range", PStr (str low ++ " - " ++ str high));
                 ("Unit", PStr (if contains "cpu" metric then "%"
                                else if contains "network" metric then "Mbps"
                                else "/sec")) ])
      (Dict.items baseline).

(** The statement [if anomalies: ... else: ...] that ends a cycle's display. *)
Definition respond_to_anomalies (anomalies : Dict.t Anomaly) : Script unit :=
  if Dict.truthy anomalies
  then show_threat_response ;; sleep 2
  else sleep 2.

(** One monitoring cycle: the body of [if cycle < total_cycles]. *)
Definition monitoring_cycle (timestamp : string) : Script unit :=
  c <- get_cycle ;;
  t <- get_total_cycles ;;
  render Main (Markdown ("### 📊 Monitoring Cycle " ++ str (c + 1)
                         ++ " of " ++ str t)) ;;
  c <- get_cycle ;;
  t <- get_total_cycles ;;
  values <- with_random (simulate_behavior c t) ;;
  anomalies <- lift (detect_anomalies values) ;;
  display_metrics values anomalies ;;
  render Main (Markdown "---") ;;
  display_anomalies anomalies ;;
  c <- get_cycle ;;
  render (Expander "📋 Detailed System Data")
         (Json (detail_record timestamp c values anomalies)) ;;
  respond_to_anomalies anomalies ;;
  c <- get_cycle ;;
  set_cycle (c + 1) ;;
  sleep 1 ;;
  rerun.

(** The body of the [else] branch: the run is over. *)
Definition simulation_complete : Script unit :=
  render Main (SuccessBox "🎉 **Simulation Complete!**") ;;
  render Main (InfoBox "The CyberDNA system successfully detected and responded to all threats. System is now secure.") ;;
  set_simulation_running false ;;
  render Main (Markdown "### 📈 Simulation Summary") ;;
  t <- get_total_cycles ;;
  for_each (fun '(key, v) => render (Column 1) (Metric key v))
           (firstn 2 (Dict.items (summary_data t))) ;;
  for_each (fun '(key, v) => render (Column 2) (Metric key v))
           (skipn 2 (Dict.items (summary_data t))).

(** The page shown while no simulation is running. *)
Definition about_page : Script unit :=
  render Main (Markdown "### 📖 About This Simulation") ;;
  render Main (InfoBox about_text) ;;
  render Main (Markdown "### ⚖️ System Baseline (Normal Ranges)") ;;
  render Main (Table baseline_display).

Definition run_simulation (inp : Inputs) : Script unit :=
  render Main (Title "🛡️ CyberDNA Cybersecurity Simulation") ;;
  render Main
    (Markdown "**Real-time threat detection and response demonstration**") ;;
  (fun w =>
     match simulation_running (session_state w) with
     | None =>
         (set_simulation_running false ;;
          set_cycle 0 ;;
          set_total_cycles 3) w
     | Some _ => ret tt w
     end) ;;
  running <- get_simulation_running ;;
  start <- button (Column 1) "🚀 Start Simulation" running
             (start_clicked inp) ;;
  (if start
   then set_simulation_running true ;; set_cycle 0
   else ret tt) ;;
  reset <- button (Column 2) "🔄 Reset" false (reset_clicked inp) ;;
  (if reset
   then set_simulation_running false ;; set_cycle 0 ;; rerun
   else ret tt) ;;
  let timestamp := now inp in
  render Main (Markdown ("**Current Time:** " ++ timestamp)) ;;
  running <- get_simulation_running ;;
  if (running : bool) then
    c <- get_cycle ;;
    t <- get_total_cycles ;;
    if (c <? t)%Z
    then monitoring_cycle timestamp
    else simulation_complete
  else about_page.

(** ** The host *)

(** Streamlit draws every run on a fresh page; the session state and the
    generator's state carry over. *)
Definition fresh_page (w : World) : World :=
  {| session_state := session_state w; random := random w; ui := [] |}.

Definition script_run (inp : Inputs) (w : World) : result unit * World :=
  run_simulation inp (fresh_page w).

(** A browser session starts with an empty session state. *)
Definition initial_world (g : RandomState) : World :=
  {| session_state := empty_session; random := g; ui := [] |}.

(** The worlds a browser session can be in between two runs: the first run
    starts from an empty session state, and any input can come next. *)
Inductive reachable : World -> Prop :=
| reach_first (inp : Inputs) (g : RandomState) :
    reachable (snd (script_run inp (initial_world g)))
| reach_run (inp : Inputs) (w : World) :
    reachable w -> reachable (snd (script_run inp w)).

(** Runs the script once per input and keeps every page that was drawn. *)
Fixpoint play (inputs : list Inputs) (w : World)
  : list (list UiEvent) * World :=
  match inputs with
  | [] => ([], w)
  | inp :: rest =>
      let w' := snd (script_run inp w) in
      let '(pages, w'') := play rest w' in
      (ui w' :: pages, w'')
  end.


(** ** Vocabulary of the statements *)

(** The text [detect_anomalies] stores with an anomalous value. *)
Definition range_text (low high : Z) : string := str low ++ "-" ++ str high.

(** A sample has an entry for every metric of the baseline. *)
Definition covers_baseline (values : Dict.t Z) : Prop :=
  forall k, In k (Dict.keys baseline) -> Dict.mem values k = true.

(** Two samples agree on the metrics of the baseline. *)
Definition same_on_baseline (values values' : Dict.t Z) : Prop :=
  forall k, In k (Dict.keys baseline) -> Dict.get values k = Dict.get values' k.

(** The sample of the last cycle. *)
Definition final_sample : Dict.t Z :=
  [("cpu_usage", 12); ("network_activity", 30); ("file_access_rate", 1)].

(** A world with more output. *)
Definition add_ui (w : World) (events : list UiEvent) : World :=
  {| session_state := session_state w;
     random := random w;
     ui := (ui w ++ events)%list |}.

(** What the response sequencer shows, in order. *)
Definition threat_response_events : list UiEvent :=
  [ Render Main (ErrorBox "🚨 **Threat Detected! Initiating Response...**");
    Render Placeholder (WarningBox "🔍 Analyzing threat patterns...");
    Sleep 1;
    Render Placeholder (WarningBox "🛡️ Isolating affected systems...");
    Sleep 1;
    Render Placeholder (WarningBox "🔧 Rolling back malicious changes...");
    Sleep 1;
    Render Placeholder (SuccessBox "✅ System healed and secured!");
    Sleep 1 ].

(** What one metric contributes to the report. *)
Definition verdict (items : Dict.t (Z * Z)) (values : Dict.t Z) (k : string)
  : option Anomaly :=
  match Dict.get items k, Dict.get values k with
  | Some (low, high), Some v =>
      if in_range low v high then None
      else Some {| value := v; expected_range := range_text low high |}
  | _, _ => None
  end.

(** A stream that makes every metric normal on every cycle, and one that
    makes every metric anomalous on every cycle but the last. *)
Definition calm_stream : RandomState :=
  fun n => match (n mod 3)%nat with O => 7 | S O => 20 | _ => 1 end.

Definition stormy_stream : RandomState := fun _ => 4.

(** What a script shows when it starts on an empty page. *)
Definition output {A : Type} (s : Script A) : list UiEvent :=
  ui (snd (s (initial_world (fun _ => 0)))).

Definition is_json (e : UiEvent) : bool :=
  match e with Render _ (Json _) => true | _ => false end.

Definition is_metric (name : string) (e : UiEvent) : bool :=
  match e with
  | Render _ (Metric label _) => String.eqb label name
  | _ => false
  end.

Definition complete_banner : UiEvent :=
  Render Main (SuccessBox "🎉 **Simulation Complete!**").

Definition is_threat_alert (e : UiEvent) : bool :=
  match e with
  | Render Main (ErrorBox text) =>
      String.eqb text "🚨 **Threat Detected! Initiating Response...**"
  | _ => false
  end.

(** The number of pages of a session on which a threat was announced. *)
Definition threats_announced (pages : list (list UiEvent)) : nat :=
  List.length (filter (fun page => existsb is_threat_alert page) pages).

(** The top of every page; [running] is the flag found at the start of the
    run. *)
Definition page_header (inp : Inputs) (running : bool) : list UiEvent :=
  [ Render Main (Title "🛡️ CyberDNA Cybersecurity Simulation");
    Render Main
      (Markdown "**Real-time threat detection and response demonstration**");
    Render (Column 1) (Button "🚀 Start Simulation" running);
    Render (Column 2) (Button "🔄 Reset" false);
    Render Main (Markdown ("**Current Time:** " ++ now inp)) ].

(** What a monitoring cycle shows for counter value [c]. *)
Definition cycle_body (timestamp : string) (c t : Z)
    (values : Dict.t Z) (report : Dict.t Anomaly) : list UiEvent :=
  ([Render Main (Markdown ("### 📊 Monitoring Cycle " ++ str (c + 1)
                           ++ " of " ++ str t))]
   ++ output (display_metrics values report)
   ++ [Render Main (Markdown "---")]
   ++ output (display_anomalies report)
   ++ [Render (Expander "📋 Detailed System Data")
              (Json (detail_record timestamp c values report))]
   ++ output (respond_to_anomalies report)
   ++ [Sleep 1])%list.

(** The page of a monitoring run. *)
Definition cycle_page (inp : Inputs) (running : bool) (c t : Z)
    (values : Dict.t Z) (report : Dict.t Anomaly) : list UiEvent :=
  (page_header inp running ++ cycle_body (now inp) c t values report)%list.

(** A script that only draws: it returns normally and leaves the session
    and the generator alone. *)
Definition shows (s : Script unit) : Prop :=
  forall w, s w = (Ok tt, add_ui w (output s)).

(** What the run that ends a simulation shows below the header. *)
Definition completion_body (t : Z) : list UiEvent :=
  [ complete_banner;
    Render Main (InfoBox "The CyberDNA system successfully detected and responded to all threats. System is now secure.");
    Render Main (Markdown "### 📈 Simulation Summary");
    Render (Column 1) (Metric "Total Cycles" (PInt t));
    Render (Column 1) (Metric "Threats Detected" (PInt (t - 1)));
    Render (Column 2) (Metric "Response Time" (PStr "< 3 seconds per threat"));
    Render (Column 2) (Metric "System Status" (PStr "Secure ✅")) ].

(** The page of the run that ends a simulation. *)
Definition completion_page (inp : Inputs) (running : bool) (t : Z)
  : list UiEvent :=
  (page_header inp running ++ completion_body t)%list.

(** The session state right after its first initialisation. *)
Definition initialised_session : SessionState :=
  mkSession (Some false) (Some 0) (Some 3).

(** Whether the Start button takes effect, and the flag and counter that
    the dispatch at the end of the script then finds. *)
Definition starts (inp : Inputs) (b : bool) : bool :=
  start_clicked inp && negb b.

Definition counter_at_dispatch (inp : Inputs) (b : bool) (c : Z) : Z :=
  if starts inp b then 0 else c.

(** The session a run leaves behind, from the one it found. *)
Definition next_session (inp : Inputs) (b : bool) (c t : Z) : SessionState :=
  let c1 := counter_at_dispatch inp b c in
  if reset_clicked inp then mkSession (Some false) (Some 0) (Some t)
  else if b || starts inp b then
    if (c1 <? t)%Z then mkSession (Some true) (Some (c1 + 1)) (Some t)
    else mkSession (Some false) (Some c1) (Some t)
  else mkSession (Some false) (Some c1) (Some t).

(** What holds of the session between two runs. *)
Definition run_state_ok (s : SessionState) : Prop :=
  exists b c, s = mkSession (Some b) (Some c) (Some 3) /\ 0 <= c <= 3.

Definition is_banner (e : UiEvent) : bool :=
  match e with
  | Render Main (SuccessBox _) => true
  | _ => false
  end.

(** The "anomalies" field of the record of a cycle. *)
Definition anomalies_field (report : Dict.t Anomaly) : pyval :=
  match report with
  | [] => PStr "None detected"
  | _ :: _ => pyval_of_anomalies report
  end.

Definition start_click : Inputs :=
  {| start_clicked := true; reset_clicked := false;
     now := "2024-01-01 00:00:00" |}.

Definition no_click : Inputs :=
  {| start_clicked := false; reset_clicked := false;
     now := "2024-01-01 00:00:01" |}.

(** Whether the sample's value for a baseline metric is outside its range. *)
Definition is_anomalous (values : Dict.t Z) (k : string) : bool :=
  match Dict.get baseline k, Dict.get values k with
  | Some (low, high), Some v => negb (in_range low v high)
  | _, _ => false
  end.

(** A sample with exactly the three metrics, in the order of the generator. *)
Definition sample_of (cpu net file : Z) : Dict.t Z :=
  [("cpu_usage", cpu); ("network_activity", net); ("file_access_rate", file)].

(** The status box of one metric: green when [ok], red otherwise. *)
Definition metric_box (ok : bool) (label : string) (v : Z) (unit_text : string)
  : Element :=
  if ok then SuccessBox ("✅ " ++ label ++ str v ++ unit_text)
  else ErrorBox ("🔴 " ++ label ++ str v ++ unit_text).

(** The seconds a page spends in [time.sleep]. *)
Definition total_sleep (page : list UiEvent) : Z :=
  fold_right (fun e acc => match e with
                           | Sleep n => n + acc
                           | Render _ _ => acc
                           end) 0 page.

(** The session after a sequence of runs, one per input. *)
Fixpoint sessions_after (inputs : list Inputs) (s : SessionState)
  : SessionState :=
  match inputs with
  | [] => s
  | inp :: rest =>
      match s with
      | {| simulation_running := Some b; cycle := Some c;
           total_cycles := Some t |} =>
          sessions_after rest (next_session inp b c t)
      | _ => s
      end
  end.

(** How a run may end: with the rerun request, or normally with the
    simulation stopped. *)
Definition ends_cleanly (r : result unit * World) : Prop :=
  fst r = Raise RerunException \/
  (fst r = Ok tt /\
   simulation_running (session_state (snd r)) = Some false).

(** A red status box of [display_metrics]. *)
Definition is_red_box (e : UiEvent) : bool :=
  match e with
  | Render (Column _) (ErrorBox _) => true
  | _ => false
  end.

(** The rows of the tables on a page. *)
Definition table_rows (page : list UiEvent) : nat :=
  fold_right (fun e acc => match e with
                           | Render _ (Table rows) => (List.length rows + acc)%nat
                           | _ => acc
                           end) 0%nat page.

Definition is_all_normal (e : UiEvent) : bool :=
  match e with
  | Render Main (InfoBox text) =>
      String.eqb text "✅ **All systems normal. No threats detected.**"
  | _ => false
  end.

Ltac unfold_script :=
  unfold bind, ret, raise, lift, rerun, button, render, sleep, emit,
    get_simulation_running, get_cycle, get_total_cycles, read_attr,
    set_simulation_running, set_cycle, set_total_cycles, write_session,
    with_random in *.

Ltac run_script := repeat (progress (unfold_script; simpl)).

(** The same for the page script, whose branches stay folded. *)
Ltac step_script :=
  repeat (progress
            (unfold_script;
             cbn [session_state random ui simulation_running cycle
                  total_cycles start_clicked reset_clicked now
                  andb negb orb fst snd app fresh_page])).

Arguments str : simpl never.
Arguments randint : simpl never.

(** * Properties *)

(** ** Dictionaries *)

Section DictFacts.
Context {V : Type}.
Implicit Types (d : Dict.t V) (k : string) (v : V).

Lemma get_set d k k' v :
  Dict.get (Dict.set d k v) k' =
  if String.eqb k' k then Some v else Dict.get d k'.
Proof.
  induction d as [| [k0 v0] d IH]; simpl.
  - reflexivity.
  - destruct (String.eqb_spec k k0) as [-> | Hk]; simpl.
    + destruct (String.eqb k' k0); reflexivity.
    + rewrite IH.
      destruct (String.eqb_spec k' k0) as [-> | Hk'].
      * destruct (String.eqb_spec k0 k); [congruence | reflexivity].
      * reflexivity.
Qed.

Lemma in_set d k v k' v' :
  In (k', v') (Dict.set d k v) -> In (k', v') d \/ (k', v') = (k, v).
Proof.
  induction d as [| [k0 v0] d IH]; simpl.
  - intros [H | []]; right; congruence.
  - destruct (String.eqb_spec k k0) as [-> | Hk]; simpl.
    + intros [H | H]; [right; congruence | left; right; exact H].
    + intros [H | H]; [left; left; exact H |].
      destruct (IH H) as [H' | H']; [left; right; exact H' | right; exact H'].
Qed.

Lemma get_none_not_key d k : Dict.get d k = None <-> ~ In k (Dict.keys d).
Proof.
  induction d as [| [k0 v0] d IH]; simpl.
  - split; [intros _ [] | reflexivity].
  - destruct (String.eqb_spec k k0) as [-> | Hk].
    + split; [discriminate | intros H; exfalso; apply H; left; reflexivity].
    + rewrite IH. split.
      * intros H [E | I]; [congruence | exact (H I)].
      * intros H I. apply H. right. exact I.
Qed.

Lemma in_get_nodup d k v :
  NoDup (Dict.keys d) -> In (k, v) d -> Dict.get d k = Some v.
Proof.
  induction d as [| [k0 v0] d IH]; simpl; [intros _ [] |].
  intros ND [E | I].
  - injection E as -> ->. rewrite String.eqb_refl. reflexivity.
  - inversion ND as [| ? ? Hnot ND']; subst.
    destruct (String.eqb_spec k k0) as [-> | Hk].
    + exfalso. apply Hnot. change (In (fst (k0, v)) (map fst d)).
      apply in_map. exact I.
    + apply IH; assumption.
Qed.

Lemma in_keys_set d k v k' :
  In k' (Dict.keys (Dict.set d k v)) -> In k' (Dict.keys d) \/ k' = k.
Proof.
  unfold Dict.keys. intros Hin. apply in_map_iff in Hin.
  destruct Hin as [[k1 v1] [<- Hin]]. apply in_set in Hin.
  destruct Hin as [Hin | [= -> ->]]; [left | right; reflexivity].
  change k1 with (fst (k1, v1)). apply in_map. exact Hin.
Qed.

Lemma set_keys_nodup d k v :
  NoDup (Dict.keys d) -> NoDup (Dict.keys (Dict.set d k v)).
Proof.
  induction d as [| [k0 v0] d IH]; simpl.
  - intros _. constructor; [intros [] | constructor].
  - intros ND. inversion ND as [| ? ? Hnot ND']; subst.
    destruct (String.eqb_spec k k0) as [-> | Hk]; simpl.
    + exact ND.
    + constructor; [| exact (IH ND')].
      intros Hin. apply in_keys_set in Hin.
      destruct Hin as [Hin | ->]; [exact (Hnot Hin) | exact (Hk eq_refl)].
Qed.

Lemma mem_true_get d k : Dict.mem d k = true <-> exists v, Dict.get d k = Some v.
Proof.
  unfold Dict.mem. destruct (Dict.get d k) as [v |].
  - split; [exists v; reflexivity | reflexivity].
  - split; [discriminate | intros [v H]; discriminate].
Qed.

End DictFacts.

(** ** The detection loop *)

Lemma in_range_false_iff low v high :
  in_range low v high = false <-> v < low \/ high < v.
Proof.
  unfold in_range. rewrite andb_false_iff, !Z.leb_gt. tauto.
Qed.

Lemma detect_loop_total items values :
  (forall k, In k (Dict.keys items) -> Dict.mem values k = true) ->
  forall acc, exists report, detect_loop items values acc = Ok report.
Proof.
  induction items as [| [k [low high]] items IH]; intros Hcov acc; simpl.
  - exists acc. reflexivity.
  - assert (Hk : Dict.mem values k = true) by (apply Hcov; left; reflexivity).
    apply mem_true_get in Hk. destruct Hk as [v Hv].
    unfold subscript. rewrite Hv.
    assert (Hrest : forall k', In k' (Dict.keys items) -> Dict.mem values k' = true)
      by (intros k' Hin; apply Hcov; right; exact Hin).
    destruct (negb (in_range low v high)); apply IH; exact Hrest.
Qed.

Lemma detect_loop_get items values :
  NoDup (Dict.keys items) ->
  forall acc report,
    detect_loop items values acc = Ok report ->
    forall k, Dict.get report k =
              match verdict items values k with
              | Some a => Some a
              | None => Dict.get acc k
              end.
Proof.
  induction items as [| [k0 [low high]] items IH]; intros ND acc report; simpl.
  - intros [= <-] k. reflexivity.
  - inversion ND as [| ? ? Hnot ND']; subst.
    unfold subscript. destruct (Dict.get values k0) as [v |] eqn:Hv; [| discriminate].
    intros Hloop k. unfold verdict. simpl.
    destruct (String.eqb_spec k k0) as [-> | Hk].
    + rewrite Hv.
      assert (Hrest : verdict items values k0 = None).
      { unfold verdict. apply get_none_not_key in Hnot. rewrite Hnot. reflexivity. }
      destruct (in_range low v high); simpl in Hloop;
        rewrite (IH ND' _ _ Hloop k0), Hrest.
      * reflexivity.
      * rewrite get_set, String.eqb_refl. reflexivity.
    + fold (verdict items values k).
      destruct (in_range low v high); simpl in Hloop;
        rewrite (IH ND' _ _ Hloop k).
      * reflexivity.
      * rewrite get_set. destruct (String.eqb_spec k k0); [contradiction |].
        reflexivity.
Qed.

Lemma detect_loop_entries items values :
  forall acc report,
    detect_loop items values acc = Ok report ->
    forall k a, In (k, a) report ->
      In (k, a) acc \/
      exists low high,
        In (k, (low, high)) items /\
        Dict.get values k = Some (value a) /\
        in_range low (value a) high = false /\
        expected_range a = range_text low high.
Proof.
  induction items as [| [k0 [low high]] items IH]; intros acc report; simpl.
  - intros [= <-] k a Hin. left. exact Hin.
  - unfold subscript. destruct (Dict.get values k0) as [v |] eqn:Hv; [| discriminate].
    destruct (in_range low v high) eqn:Hr; simpl; intros Hloop k a Hin.
    + destruct (IH _ _ Hloop k a Hin) as [H | (lo & hi & H1 & H2)].
      * left. exact H.
      * right. exists lo, hi. split; [right; exact H1 | exact H2].
    + destruct (IH _ _ Hloop k a Hin) as [H | (lo & hi & H1 & H2)].
      * apply in_set in H. destruct H as [H | H]; [left; exact H |].
        injection H as -> ->. right. exists low, high. simpl.
        repeat split; [left; reflexivity | exact Hv | exact Hr].
      * right. exists lo, hi. split; [right; exact H1 | exact H2].
Qed.

Lemma detect_loop_nodup items values :
  forall acc report,
    NoDup (Dict.keys acc) ->
    detect_loop items values acc = Ok report -> NoDup (Dict.keys report).
Proof.
  induction items as [| [k0 [low high]] items IH]; intros acc report ND; simpl.
  - intros [= <-]. exact ND.
  - unfold subscript. destruct (Dict.get values k0) as [v |]; [| discriminate].
    destruct (negb (in_range low v high)); apply IH;
      [apply set_keys_nodup |]; exact ND.
Qed.

Lemma detect_loop_ext items values values' :
  (forall k, In k (Dict.keys items) -> Dict.get values k = Dict.get values' k) ->
  forall acc, detect_loop items values acc = detect_loop items values' acc.
Proof.
  induction items as [| [k [low high]] items IH]; intros Hsame acc; simpl.
  - reflexivity.
  - unfold subscript. rewrite <- (Hsame k) by (left; reflexivity).
    assert (Hrest : forall k', In k' (Dict.keys items) ->
                               Dict.get values k' = Dict.get values' k')
      by (intros k' Hin; apply Hsame; right; exact Hin).
    destruct (Dict.get values k) as [v |]; [| reflexivity].
    destruct (negb (in_range low v high)); apply IH; exact Hrest.
Qed.

Lemma detect_loop_missing items values k :
  In k (Dict.keys items) -> Dict.get values k = None ->
  forall acc, exists k',
    detect_loop items values acc = Raise (KeyError k') /\
    In k' (Dict.keys items) /\ Dict.get values k' = None.
Proof.
  induction items as [| [k0 [low high]] items IH]; simpl; [intros [] |].
  intros Hin Hnone acc. unfold subscript.
  destruct (Dict.get values k0) as [v |] eqn:Hv.
  - destruct Hin as [-> | Hin]; [congruence |].
    destruct (negb (in_range low v high));
      match goal with
      | |- exists _, detect_loop _ _ ?a = _ /\ _ =>
          destruct (IH Hin Hnone a) as (k' & H1 & H2 & H3)
      end;
      exists k'; (split; [exact H1 | split; [right; exact H2 | exact H3]]).
  - exists k0. split; [reflexivity | split; [left; reflexivity | exact Hv]].
Qed.

Lemma baseline_keys_nodup : NoDup (Dict.keys baseline).
Proof.
  unfold baseline, Dict.keys; simpl.
  repeat constructor; simpl; intuition discriminate.
Qed.

Lemma baseline_get k low high :
  In (k, (low, high)) (Dict.items baseline) -> Dict.get baseline k = Some (low, high).
Proof. apply in_get_nodup. exact baseline_keys_nodup. Qed.

Lemma baseline_ordered k low high :
  In (k, (low, high)) (Dict.items baseline) -> low <= high.
Proof.
  unfold Dict.items, baseline; simpl.
  intros [H | [H | [H | []]]]; injection H as _ <- <-; lia.
Qed.

(** ** Anomaly detection *)

(** C1.  For a sample that has the three baseline metrics, [detect_anomalies]
    returns a report, and a metric is in the report exactly when its value is
    strictly outside the inclusive range [low..high] of the baseline.  In
    particular a value equal to [low] or to [high] is not reported, and a
    value equal to [low - 1] or to [high + 1] is reported. *)
Theorem detect_anomalies_outside_range (values : Dict.t Z) :
  covers_baseline values ->
  exists report,
    detect_anomalies values = Ok report /\
    forall k low high v,
      In (k, (low, high)) (Dict.items baseline) ->
      Dict.get values k = Some v ->
      (Dict.mem report k = true <-> (v < low \/ high < v)) /\
      (v = low \/ v = high -> Dict.mem report k = false) /\
      (v = low - 1 \/ v = high + 1 -> Dict.mem report k = true).
Proof.
  intros Hcov.
  destruct (detect_loop_total (Dict.items baseline) values Hcov Dict.empty)
    as [report Hrep].
  exists report. split; [exact Hrep |].
  intros k low high v Hin Hv.
  pose proof (detect_loop_get _ _ baseline_keys_nodup _ _ Hrep k) as Hget.
  unfold verdict in Hget.
  change (Dict.get (Dict.items baseline) k) with (Dict.get baseline k) in Hget.
  rewrite (baseline_get _ _ _ Hin), Hv in Hget. simpl in Hget.
  pose proof (baseline_ordered _ _ _ Hin) as Hord.
  assert (Hiff : Dict.mem report k = true <-> (v < low \/ high < v)).
  { rewrite <- in_range_false_iff. unfold Dict.mem. rewrite Hget.
    destruct (in_range low v high); split; congruence. }
  split; [exact Hiff |]. split.
  - intros Heq. apply not_true_is_false. intros Hm.
    apply Hiff in Hm. lia.
  - intros Heq. apply Hiff. lia.
Qed.

Lemma detect_anomalies_outside_range_witness :
  exists report,
    detect_anomalies
      [("cpu_usage", 9); ("network_activity", 40); ("file_access_rate", 4)]
    = Ok report /\
    forall k low high v,
      In (k, (low, high)) (Dict.items baseline) ->
      Dict.get
        [("cpu_usage", 9); ("network_activity", 40); ("file_access_rate", 4)] k
      = Some v ->
      (Dict.mem report k = true <-> (v < low \/ high < v)) /\
      (v = low \/ v = high -> Dict.mem report k = false) /\
      (v = low - 1 \/ v = high + 1 -> Dict.mem report k = true).
Proof.
  apply (detect_anomalies_outside_range
           [("cpu_usage", 9); ("network_activity", 40); ("file_access_rate", 4)]).
  intros k [<- | [<- | [<- | []]]]; reflexivity.
Defined.

(** C10.  [detect_anomalies] reads from the sample exactly the keys of the
    baseline: (1) it returns a report for every sample that has the three
    baseline metrics; (2) two samples that agree on those three keys give
    the same result, whatever other keys they hold; (3) when a baseline key
    is missing the call stops with KeyError at a missing baseline key; and
    (4) every entry of a returned report is filed under a baseline key and
    holds the sample's value for that key, lying outside the range, with
    the text "low-high" of that key's range, which for the three metrics
    reads "10-15", "20-40" and "0-3". *)
Theorem detect_anomalies_reads_baseline_keys :
  (forall values, covers_baseline values ->
     exists report, detect_anomalies values = Ok report) /\
  (forall values values', same_on_baseline values values' ->
     detect_anomalies values = detect_anomalies values') /\
  (forall values k,
     In k (Dict.keys baseline) -> Dict.get values k = None ->
     exists k', detect_anomalies values = Raise (KeyError k') /\
                In k' (Dict.keys baseline) /\ Dict.get values k' = None) /\
  (forall values report,
     detect_anomalies values = Ok report ->
     NoDup (Dict.keys report) /\
     forall k a, In (k, a) report ->
       exists low high,
         In (k, (low, high)) (Dict.items baseline) /\
         Dict.get values k = Some (value a) /\
         in_range low (value a) high = false /\
         expected_range a = range_text low high) /\
  map (fun '(k, (low, high)) => (k, range_text low high)) (Dict.items baseline)
  = [("cpu_usage", "10-15"); ("network_activity", "20-40");
     ("file_access_rate", "0-3")].
Proof.
  split; [| split; [| split; [| split]]].
  - intros values Hcov.
    exact (detect_loop_total (Dict.items baseline) values Hcov Dict.empty).
  - intros values values' Hsame.
    exact (detect_loop_ext (Dict.items baseline) values values' Hsame Dict.empty).
  - intros values k Hin Hnone.
    exact (detect_loop_missing (Dict.items baseline) values k Hin Hnone Dict.empty).
  - intros values report Hrep. split.
    + apply (detect_loop_nodup (Dict.items baseline) values Dict.empty report);
        [constructor | exact Hrep].
    + intros k a Hin.
      destruct (detect_loop_entries _ _ _ _ Hrep k a Hin) as [[] | H]. exact H.
  - reflexivity.
Qed.

Lemma detect_anomalies_reads_baseline_keys_witness :
  (exists report, detect_anomalies final_sample = Ok report) /\
  detect_anomalies final_sample =
    detect_anomalies (("uptime", 99) :: final_sample) /\
  (exists k',
     detect_anomalies [("cpu_usage", 12); ("file_access_rate", 1)] =
       Raise (KeyError k') /\
     In k' (Dict.keys baseline) /\
     Dict.get [("cpu_usage", 12); ("file_access_rate", 1)] k' = None).
Proof.
  destruct detect_anomalies_reads_baseline_keys as (Htotal & Hsame & Hmiss & _).
  split; [| split].
  - apply (Htotal final_sample).
    intros k [<- | [<- | [<- | []]]]; reflexivity.
  - apply (Hsame final_sample (("uptime", 99) :: final_sample)).
    intros k [<- | [<- | [<- | []]]]; reflexivity.
  - apply (Hmiss [("cpu_usage", 12); ("file_access_rate", 1)] "network_activity").
    + right. left. reflexivity.
    + reflexivity.
Defined.

(** ** The sample generator *)

Lemma randint_range a b g : a <= b -> a <= fst (randint a b g) <= b.
Proof.
  intros Hab. unfold randint; simpl.
  pose proof (Z.mod_pos_bound (g 0%nat) (b - a + 1)). lia.
Qed.

(** Every integer of the range is drawn from some stream. *)
Lemma randint_onto a b v :
  a <= v <= b -> forall g, fst (randint a b (fun n => match n with
                                                     | O => v - a
                                                     | S m => g m
                                                     end)) = v
                           /\ snd (randint a b (fun n => match n with
                                                         | O => v - a
                                                         | S m => g m
                                                         end)) = g.
Proof.
  intros Hv g. unfold randint; simpl. split; [| reflexivity].
  rewrite Z.mod_small by lia. lia.
Qed.

Lemma simulate_behavior_final cycle total g :
  cycle = total - 1 -> simulate_behavior cycle total g = (final_sample, g).
Proof.
  intros ->. unfold simulate_behavior. rewrite Z.eqb_refl. reflexivity.
Qed.

Lemma simulate_behavior_other cycle total g :
  cycle <> total - 1 ->
  simulate_behavior cycle total g =
  ([ ("cpu_usage", fst (randint 5 45 g));
     ("network_activity", fst (randint 10 50 (snd (randint 5 45 g))));
     ("file_access_rate",
      fst (randint 0 7 (snd (randint 10 50 (snd (randint 5 45 g)))))) ],
   snd (randint 0 7 (snd (randint 10 50 (snd (randint 5 45 g)))))).
Proof.
  intros Hne. unfold simulate_behavior.
  destruct (Z.eqb_spec cycle (total - 1)) as [E | _]; [contradiction |].
  reflexivity.
Qed.

(** C2.  On the last cycle (cycle index [total - 1]), whatever the total
    and the state of the generator, the sample is the fixed one: 12, 30
    and 1.  Each of the three values lies in the inclusive baseline range of
    its metric, and [detect_anomalies] returns the empty report for it. *)
Theorem final_cycle_sample_is_clean (cycle total : Z) (g : RandomState) :
  cycle = total - 1 ->
  simulate_behavior cycle total g = (final_sample, g) /\
  (forall k low high,
     In (k, (low, high)) (Dict.items baseline) ->
     exists v, Dict.get (fst (simulate_behavior cycle total g)) k = Some v /\
               low <= v <= high) /\
  detect_anomalies (fst (simulate_behavior cycle total g)) = Ok Dict.empty.
Proof.
  intros Hlast. rewrite (simulate_behavior_final _ _ g Hlast). cbn [fst].
  split; [reflexivity |]. split; [| reflexivity].
  intros k low high [H | [H | [H | []]]]; injection H as <- <- <-;
    eexists; (split; [reflexivity | lia]).
Qed.

Lemma final_cycle_sample_is_clean_witness :
  simulate_behavior 2 3 (fun _ => 4) = (final_sample, fun _ => 4) /\
  (forall k low high,
     In (k, (low, high)) (Dict.items baseline) ->
     exists v,
       Dict.get (fst (simulate_behavior 2 3 (fun _ => 4))) k = Some v /\
       low <= v <= high) /\
  detect_anomalies (fst (simulate_behavior 2 3 (fun _ => 4))) = Ok Dict.empty.
Proof.
  apply (final_cycle_sample_is_clean 2 3 (fun _ => 4)). reflexivity.
Defined.

(** C4.  On a cycle other than the last, whatever the state of the
    generator, the sample holds exactly the three metrics, with
    cpu_usage in 5..45, network_activity in 10..50 and file_access_rate
    in 0..7. *)
Theorem other_cycle_sample_in_wide_range (cycle total : Z) (g : RandomState) :
  cycle <> total - 1 ->
  exists cpu net file,
    fst (simulate_behavior cycle total g) =
      [("cpu_usage", cpu); ("network_activity", net);
       ("file_access_rate", file)] /\
    5 <= cpu <= 45 /\ 10 <= net <= 50 /\ 0 <= file <= 7.
Proof.
  intros Hne. rewrite (simulate_behavior_other _ _ g Hne). cbn [fst].
  do 3 eexists. split; [reflexivity |].
  repeat split; apply randint_range; lia.
Qed.

Lemma other_cycle_sample_in_wide_range_witness :
  exists cpu net file,
    fst (simulate_behavior 0 3 (fun n => Z.of_nat n * 1000 + 7)) =
      [("cpu_usage", cpu); ("network_activity", net);
       ("file_access_rate", file)] /\
    5 <= cpu <= 45 /\ 10 <= net <= 50 /\ 0 <= file <= 7.
Proof.
  apply (other_cycle_sample_in_wide_range 0 3 (fun n => Z.of_nat n * 1000 + 7)).
  lia.
Defined.

(** C5.  On a cycle other than the last, for each of the three metrics the
    generator can return a value inside the metric's baseline range, which
    [detect_anomalies] does not report, and it can return a value outside
    that range, which [detect_anomalies] reports: an anomaly is possible and
    is not certain. *)
Theorem other_cycle_anomaly_possible_not_certain (cycle total : Z) :
  cycle <> total - 1 ->
  forall k low high,
    In (k, (low, high)) (Dict.items baseline) ->
    (exists g v report,
       Dict.get (fst (simulate_behavior cycle total g)) k = Some v /\
       low <= v <= high /\
       detect_anomalies (fst (simulate_behavior cycle total g)) = Ok report /\
       Dict.mem report k = false) /\
    (exists g v report,
       Dict.get (fst (simulate_behavior cycle total g)) k = Some v /\
       ~ (low <= v <= high) /\
       detect_anomalies (fst (simulate_behavior cycle total g)) = Ok report /\
       Dict.mem report k = true).
Proof.
  intros Hne k low high Hin. split.
  - exists calm_stream. rewrite (simulate_behavior_other _ _ calm_stream Hne).
    destruct Hin as [H | [H | [H | []]]]; injection H as <- <- <-;
      do 2 eexists; (split; [reflexivity |]);
      (split; [vm_compute; split; discriminate |]);
      (split; reflexivity).
  - exists stormy_stream. rewrite (simulate_behavior_other _ _ stormy_stream Hne).
    destruct Hin as [H | [H | [H | []]]]; injection H as <- <- <-;
      do 2 eexists; (split; [reflexivity |]);
      (split; [vm_compute; intros [H1 H2]; auto |]);
      (split; reflexivity).
Qed.

Lemma other_cycle_anomaly_possible_not_certain_witness :
  (exists g v report,
     Dict.get (fst (simulate_behavior 0 3 g)) "cpu_usage" = Some v /\
     10 <= v <= 15 /\
     detect_anomalies (fst (simulate_behavior 0 3 g)) = Ok report /\
     Dict.mem report "cpu_usage" = false) /\
  (exists g v report,
     Dict.get (fst (simulate_behavior 0 3 g)) "cpu_usage" = Some v /\
     ~ (10 <= v <= 15) /\
     detect_anomalies (fst (simulate_behavior 0 3 g)) = Ok report /\
     Dict.mem report "cpu_usage" = true).
Proof.
  apply (other_cycle_anomaly_possible_not_certain 0 3).
  - lia.
  - left. reflexivity.
Defined.

(** ** Running scripts *)

Lemma show_threat_response_run w :
  show_threat_response w = (Ok tt, add_ui w threat_response_events).
Proof.
  unfold show_threat_response, add_ui, threat_response_events.
  run_script. repeat rewrite <- app_assoc. reflexivity.
Qed.

(** C7.  For every non-empty anomaly report the response shows the same
    events: the alert, then the four fixed texts in order, each followed by
    a pause of one time unit, the first three as warnings and the fourth as
    a success, then the pause that ends the cycle.  The report is only
    tested for emptiness, so two non-empty reports give the same output. *)
Theorem response_is_fixed_script (anomalies : Dict.t Anomaly) (w : World) :
  anomalies <> [] ->
  respond_to_anomalies anomalies w =
    (Ok tt, add_ui w (threat_response_events ++ [Sleep 2])) /\
  threat_response_events =
    (Render Main (ErrorBox "🚨 **Threat Detected! Initiating Response...**")
     :: flat_map (fun step => [Render Placeholder (WarningBox step); Sleep 1])
                 (removelast response_steps)
     ++ [Render Placeholder (SuccessBox (last response_steps "")); Sleep 1])%list /\
  List.length response_steps = 4%nat /\
  forall anomalies', anomalies' <> [] ->
    respond_to_anomalies anomalies' w = respond_to_anomalies anomalies w.
Proof.
  assert (Hrun : forall a : Dict.t Anomaly, a <> [] ->
            respond_to_anomalies a w =
            (Ok tt, add_ui w (threat_response_events ++ [Sleep 2]))).
  { intros [| e a] Ha; [contradiction |].
    unfold respond_to_anomalies. cbn [Dict.truthy].
    unfold bind. rewrite show_threat_response_run.
    unfold sleep, emit, add_ui. simpl. rewrite <- app_assoc. reflexivity. }
  intros Hne. split; [exact (Hrun _ Hne) |].
  split; [reflexivity |]. split; [reflexivity |].
  intros a' Ha'. rewrite (Hrun _ Hne), (Hrun _ Ha'). reflexivity.
Qed.

Lemma response_is_fixed_script_witness :
  respond_to_anomalies
    [("cpu_usage", {| value := 9; expected_range := "10-15" |})]
    (initial_world stormy_stream)
  = (Ok tt, add_ui (initial_world stormy_stream)
              (threat_response_events ++ [Sleep 2])).
Proof.
  refine (proj1 (response_is_fixed_script
                   [("cpu_usage", {| value := 9; expected_range := "10-15" |})]
                   (initial_world stormy_stream) _)).
  discriminate.
Defined.

(** C6.  A run in which Reset was pressed ends in the rerun request with
    [simulation_running = False] and [cycle = 0], whatever the session held
    before (a running or idle simulation, any cycle value, or nothing yet);
    [total_cycles] keeps its value. *)
Theorem reset_clears_run_state (inp : Inputs) (w : World) :
  reset_clicked inp = true ->
  fst (script_run inp w) = Raise RerunException /\
  simulation_running (session_state (snd (script_run inp w))) = Some false /\
  cycle (session_state (snd (script_run inp w))) = Some 0 /\
  total_cycles (session_state (snd (script_run inp w))) =
    match simulation_running (session_state w) with
    | None => Some 3
    | Some _ => total_cycles (session_state w)
    end.
Proof.
  intros Hreset. unfold script_run, run_simulation, fresh_page.
  destruct w as [[[[|] |] c t] g page]; destruct inp as [[|] reset time];
    cbn [reset_clicked] in Hreset; subst reset; step_script; auto.
Qed.

Lemma reset_clears_run_state_witness :
  fst (script_run (mkInputs false true "2024-01-01 00:00:00")
         (mkWorld (mkSession (Some true) (Some 2) (Some 3)) stormy_stream []))
  = Raise RerunException /\
  simulation_running
    (session_state
       (snd (script_run (mkInputs false true "2024-01-01 00:00:00")
               (mkWorld (mkSession (Some true) (Some 2) (Some 3))
                        stormy_stream []))))
  = Some false /\
  cycle
    (session_state
       (snd (script_run (mkInputs false true "2024-01-01 00:00:00")
               (mkWorld (mkSession (Some true) (Some 2) (Some 3))
                        stormy_stream []))))
  = Some 0.
Proof.
  destruct (reset_clears_run_state
              (mkInputs false true "2024-01-01 00:00:00")
              (mkWorld (mkSession (Some true) (Some 2) (Some 3))
                       stormy_stream [])) as (H1 & H2 & H3 & _).
  - reflexivity.
  - repeat split; assumption.
Defined.

(** ** One run of the page script *)

Lemma simulate_behavior_shape cycle total g :
  exists cpu net file g',
    simulate_behavior cycle total g =
    ([("cpu_usage", cpu); ("network_activity", net);
      ("file_access_rate", file)], g').
Proof.
  unfold simulate_behavior. destruct (cycle =? total - 1)%Z.
  - do 4 eexists. reflexivity.
  - destruct (randint 5 45 g) as [cpu g1].
    destruct (randint 10 50 g1) as [net g2].
    destruct (randint 0 7 g2) as [file g3].
    do 4 eexists. reflexivity.
Qed.

Lemma display_metrics_shows cpu net file report :
  shows (display_metrics
           [("cpu_usage", cpu); ("network_activity", net);
            ("file_access_rate", file)] report).
Proof.
  intros w. unfold output, display_metrics, add_ui.
  destruct (Dict.mem report "cpu_usage"), (Dict.mem report "network_activity"),
    (Dict.mem report "file_access_rate");
    run_script; repeat rewrite <- app_assoc; reflexivity.
Qed.

Lemma display_anomalies_shows report : shows (display_anomalies report).
Proof.
  intros w. unfold output, display_anomalies, add_ui.
  destruct report as [| [k a] report]; run_script;
    repeat rewrite <- app_assoc; reflexivity.
Qed.

Lemma respond_to_anomalies_shows report : shows (respond_to_anomalies report).
Proof.
  intros w. unfold output, respond_to_anomalies, show_threat_response, add_ui.
  destruct report as [| [k a] report]; run_script;
    repeat rewrite <- app_assoc; reflexivity.
Qed.

Lemma detect_anomalies_of_sample cpu net file :
  exists report,
    detect_anomalies [("cpu_usage", cpu); ("network_activity", net);
                      ("file_access_rate", file)] = Ok report.
Proof.
  apply detect_loop_total. intros k [<- | [<- | [<- | []]]]; reflexivity.
Qed.

(** One monitoring cycle, from a session that holds the counter and the
    total. *)
Lemma monitoring_cycle_run timestamp b c t g page :
  exists values report g',
    simulate_behavior c t g = (values, g') /\
    detect_anomalies values = Ok report /\
    monitoring_cycle timestamp
      (mkWorld (mkSession b (Some c) (Some t)) g page) =
      (Raise RerunException,
       mkWorld (mkSession b (Some (c + 1)) (Some t)) g'
               (page ++ cycle_body timestamp c t values report)).
Proof.
  destruct (simulate_behavior_shape c t g) as (cpu & net & file & g' & Hsim).
  destruct (detect_anomalies_of_sample cpu net file) as [report Hrep].
  exists [("cpu_usage", cpu); ("network_activity", net);
          ("file_access_rate", file)], report, g'.
  split; [exact Hsim |]. split; [exact Hrep |].
  unfold monitoring_cycle, cycle_body.
  unfold bind, get_cycle, get_total_cycles, read_attr, with_random, lift,
    render, sleep, emit, set_cycle, write_session, rerun, raise.
  cbn [session_state cycle total_cycles random ui simulation_running].
  rewrite Hsim, Hrep.
  rewrite display_metrics_shows.
  cbn [session_state cycle total_cycles random ui simulation_running add_ui].
  rewrite display_anomalies_shows.
  cbn [session_state cycle total_cycles random ui simulation_running add_ui].
  rewrite respond_to_anomalies_shows.
  cbn [session_state cycle total_cycles random ui simulation_running add_ui].
  repeat rewrite <- app_assoc. reflexivity.
Qed.

Lemma simulation_complete_run b c t g page :
  simulation_complete (mkWorld (mkSession b c (Some t)) g page) =
  (Ok tt, mkWorld (mkSession (Some false) c (Some t)) g
                  (page ++ completion_body t)).
Proof.
  unfold simulation_complete, completion_body, complete_banner.
  step_script. cbn [summary_data Dict.items firstn skipn for_each].
  step_script. repeat rewrite <- app_assoc. reflexivity.
Qed.

Lemma about_page_shows : shows about_page.
Proof.
  intros w. unfold output, about_page, add_ui, initial_world. step_script.
  repeat rewrite <- app_assoc. reflexivity.
Qed.

(** The first run initialises the session and goes on as any other. *)
Lemma script_run_first inp g page :
  script_run inp (mkWorld empty_session g page) =
  script_run inp (mkWorld initialised_session g page).
Proof.
  unfold script_run, run_simulation, empty_session, initialised_session.
  step_script. reflexivity.
Qed.

(** A run from an initialised session, up to the branch it takes. *)
Lemma script_run_dispatch inp b c t g page :
  script_run inp (mkWorld (mkSession (Some b) (Some c) (Some t)) g page) =
  if reset_clicked inp then
    (Raise RerunException,
     mkWorld (mkSession (Some false) (Some 0) (Some t)) g
             (firstn 4 (page_header inp b)))
  else
    let w1 := mkWorld (mkSession (Some (b || starts inp b))
                                 (Some (counter_at_dispatch inp b c))
                                 (Some t))
                      g (page_header inp b) in
    if b || starts inp b then
      if (counter_at_dispatch inp b c <? t)%Z
      then monitoring_cycle (now inp) w1
      else simulation_complete w1
    else about_page w1.
Proof.
  unfold script_run, run_simulation, counter_at_dispatch, starts, page_header.
  destruct inp as [start reset time].
  destruct b, start, reset; step_script; cbn [firstn]; try reflexivity;
    destruct (c <? t)%Z; try reflexivity; destruct (0 <? t)%Z; reflexivity.
Qed.

(** The session that a run leaves behind. *)
Lemma script_run_session inp b c t g page :
  session_state
    (snd (script_run inp (mkWorld (mkSession (Some b) (Some c) (Some t)) g page)))
  = next_session inp b c t.
Proof.
  rewrite script_run_dispatch. unfold next_session.
  destruct (reset_clicked inp); [reflexivity |].
  cbv zeta. destruct (b || starts inp b) eqn:Hrun.
  - destruct (counter_at_dispatch inp b c <? t)%Z.
    + destruct (monitoring_cycle_run (now inp) (Some true)
                  (counter_at_dispatch inp b c) t g (page_header inp b))
        as (values & report & g' & _ & _ & ->).
      reflexivity.
    + rewrite simulation_complete_run. reflexivity.
  - rewrite about_page_shows. cbn [snd add_ui session_state].
    apply orb_false_elim in Hrun. destruct Hrun as [-> _]. reflexivity.
Qed.

(** ** The cycle state machine *)

Lemma next_session_ok inp b c :
  0 <= c <= 3 -> run_state_ok (next_session inp b c 3).
Proof.
  intros Hc. unfold next_session, counter_at_dispatch, run_state_ok.
  destruct (reset_clicked inp); [exists false, 0; split; [reflexivity | lia] |].
  destruct (b || starts inp b).
  - destruct (starts inp b).
    + simpl. exists true, 1. split; [reflexivity | lia].
    + destruct (Z.ltb_spec c 3).
      * exists true, (c + 1). split; [reflexivity | lia].
      * exists false, c. split; [reflexivity | lia].
  - destruct (starts inp b).
    + exists false, 0. split; [reflexivity | lia].
    + exists false, c. split; [reflexivity | lia].
Qed.

Lemma reachable_ok w : reachable w -> run_state_ok (session_state w).
Proof.
  induction 1 as [inp g | inp w Hw IH].
  - unfold initial_world. rewrite script_run_first. unfold initialised_session.
    rewrite script_run_session. apply next_session_ok. lia.
  - destruct IH as (b & c & Hs & Hc). destruct w as [s g page].
    cbn [session_state] in Hs. subst s.
    rewrite script_run_session. apply next_session_ok. exact Hc.
Qed.

Lemma display_metrics_no_banner cpu net file report :
  existsb is_banner
    (output (display_metrics
               [("cpu_usage", cpu); ("network_activity", net);
                ("file_access_rate", file)] report)) = false.
Proof.
  unfold output, display_metrics, initial_world.
  destruct (Dict.mem report "cpu_usage"), (Dict.mem report "network_activity"),
    (Dict.mem report "file_access_rate"); reflexivity.
Qed.

Lemma display_anomalies_no_banner report :
  existsb is_banner (output (display_anomalies report)) = false.
Proof. destruct report as [| [k a] report]; reflexivity. Qed.

Lemma respond_to_anomalies_no_banner report :
  existsb is_banner (output (respond_to_anomalies report)) = false.
Proof. destruct report as [| [k a] report]; reflexivity. Qed.

Lemma cycle_page_no_banner inp b c t cpu net file report :
  ~ In complete_banner
      (cycle_page inp b c t
         [("cpu_usage", cpu); ("network_activity", net);
          ("file_access_rate", file)] report).
Proof.
  intros Hin.
  assert (Hex : existsb is_banner
                  (cycle_page inp b c t
                     [("cpu_usage", cpu); ("network_activity", net);
                      ("file_access_rate", file)] report) = true).
  { apply existsb_exists. exists complete_banner. split; [exact Hin | reflexivity]. }
  unfold cycle_page, cycle_body, page_header in Hex.
  rewrite !existsb_app in Hex.
  rewrite display_metrics_no_banner, display_anomalies_no_banner,
    respond_to_anomalies_no_banner in Hex.
  discriminate Hex.
Qed.

(** A run without Reset from a running session whose counter is below the
    total. *)
Lemma script_run_running_below inp c t g page :
  reset_clicked inp = false -> c < t ->
  exists values report g',
    simulate_behavior c t g = (values, g') /\
    detect_anomalies values = Ok report /\
    script_run inp (mkWorld (mkSession (Some true) (Some c) (Some t)) g page) =
      (Raise RerunException,
       mkWorld (mkSession (Some true) (Some (c + 1)) (Some t)) g'
               (cycle_page inp true c t values report)).
Proof.
  intros Hreset Hlt. rewrite script_run_dispatch, Hreset.
  unfold counter_at_dispatch, starts. rewrite andb_false_r.
  cbn [orb]. cbv zeta. apply Z.ltb_lt in Hlt. rewrite Hlt.
  exact (monitoring_cycle_run (now inp) (Some true) c t g (page_header inp true)).
Qed.

(** A run without Reset from a running session whose counter is not below
    the total. *)
Lemma script_run_running_done inp c t g page :
  reset_clicked inp = false -> ~ c < t ->
  script_run inp (mkWorld (mkSession (Some true) (Some c) (Some t)) g page) =
    (Ok tt, mkWorld (mkSession (Some false) (Some c) (Some t)) g
                    (completion_page inp true t)).
Proof.
  intros Hreset Hge. rewrite script_run_dispatch, Hreset.
  unfold counter_at_dispatch, starts. rewrite andb_false_r.
  cbn [orb]. cbv zeta. apply Z.ltb_nlt in Hge. rewrite Hge.
  apply simulation_complete_run.
Qed.

(** C3.  Between two runs of a browser session the session state holds a
    flag, a counter [c] and [total_cycles = 3], with [0 <= c <= 3].  From a
    running state: the next state is running again exactly when Reset was
    not pressed and [c < 3], and that run draws, checks and shows the sample
    for the counter value [c] and then leaves the counter at [c + 1];
    without Reset the run is the completing one (it shows the completion
    banner) exactly when [c = 3], and it then clears the running flag. *)
Theorem cycle_state_machine (w : World) :
  reachable w ->
  exists b c,
    session_state w = mkSession (Some b) (Some c) (Some 3) /\
    0 <= c <= 3 /\
    forall inp,
      b = true ->
      (simulation_running (session_state (snd (script_run inp w))) = Some true
       <-> reset_clicked inp = false /\ c < 3) /\
      (reset_clicked inp = false -> c < 3 ->
       exists values report g',
         simulate_behavior c 3 (random w) = (values, g') /\
         detect_anomalies values = Ok report /\
         script_run inp w =
           (Raise RerunException,
            mkWorld (mkSession (Some true) (Some (c + 1)) (Some 3)) g'
                    (cycle_page inp true c 3 values report))) /\
      (reset_clicked inp = false ->
       (In complete_banner (ui (snd (script_run inp w))) <-> c = 3)) /\
      (reset_clicked inp = false -> c = 3 ->
       script_run inp w =
         (Ok tt,
          mkWorld (mkSession (Some false) (Some 3) (Some 3)) (random w)
                  (completion_page inp true 3))).
Proof.
  intros Hreach. destruct (reachable_ok w Hreach) as (b & c & Hs & Hc).
  exists b, c. split; [exact Hs |]. split; [exact Hc |].
  intros inp ->. destruct w as [s g page]. cbn [session_state] in Hs. subst s.
  cbn [random].
  split; [| split; [| split]].
  - rewrite script_run_session. unfold next_session, counter_at_dispatch, starts.
    rewrite andb_false_r. cbn [orb].
    destruct (reset_clicked inp).
    + split; [discriminate | intros [H _]; discriminate H].
    + destruct (Z.ltb_spec c 3).
      * split; [intros _; split; [reflexivity | assumption] | reflexivity].
      * split; [discriminate | intros [_ H']; lia].
  - intros Hreset Hlt. apply script_run_running_below; assumption.
  - intros Hreset. destruct (Z.ltb_spec c 3) as [Hlt | Hge].
    + destruct (script_run_running_below inp c 3 g page Hreset Hlt)
        as (values & report & g' & Hsim & _ & ->).
      destruct (simulate_behavior_shape c 3 g) as (cpu & net & file & g'' & Hshape).
      rewrite Hshape in Hsim. injection Hsim as <- _.
      cbn [snd ui]. split; [| lia].
      intros Hin. exfalso. exact (cycle_page_no_banner _ _ _ _ _ _ _ _ Hin).
    + rewrite script_run_running_done by (assumption || lia).
      cbn [snd ui]. split; [lia |]. intros _.
      unfold completion_page, completion_body. apply in_or_app. right.
      left. reflexivity.
  - intros Hreset ->. apply script_run_running_done; [assumption | lia].
Qed.

Lemma cycle_state_machine_witness :
  exists b c,
    session_state (snd (script_run start_click (initial_world stormy_stream)))
    = mkSession (Some b) (Some c) (Some 3) /\ 0 <= c <= 3.
Proof.
  destruct (cycle_state_machine
              (snd (script_run start_click (initial_world stormy_stream)))
              (reach_first start_click stormy_stream))
    as (b & c & Hs & Hc & _).
  exists b, c. split; [exact Hs | exact Hc].
Defined.

(** ** The record of a cycle *)

Lemma display_metrics_no_json cpu net file report :
  filter is_json
    (output (display_metrics
               [("cpu_usage", cpu); ("network_activity", net);
                ("file_access_rate", file)] report)) = [].
Proof.
  unfold output, display_metrics, initial_world.
  destruct (Dict.mem report "cpu_usage"), (Dict.mem report "network_activity"),
    (Dict.mem report "file_access_rate"); reflexivity.
Qed.

Lemma display_anomalies_no_json report :
  filter is_json (output (display_anomalies report)) = [].
Proof. destruct report as [| [k a] report]; reflexivity. Qed.

Lemma respond_to_anomalies_no_json report :
  filter is_json (output (respond_to_anomalies report)) = [].
Proof. destruct report as [| [k a] report]; reflexivity. Qed.

(** C8.  A monitoring cycle shows exactly one JSON record.  Its fields are,
    in order, timestamp, cycle, metrics and anomalies: the timestamp of the
    run, the counter plus one (the number in the cycle's heading), the
    sample, and for anomalies the text "None detected" exactly when the
    report of [detect_anomalies] is empty and the report itself otherwise. *)
Theorem cycle_shows_one_record (timestamp : string) (b : option bool)
    (c t : Z) (g : RandomState) (page : list UiEvent) :
  exists values report g' shown,
    simulate_behavior c t g = (values, g') /\
    detect_anomalies values = Ok report /\
    snd (monitoring_cycle timestamp
           (mkWorld (mkSession b (Some c) (Some t)) g page)) =
      mkWorld (mkSession b (Some (c + 1)) (Some t)) g' (page ++ shown)%list /\
    hd_error shown =
      Some (Render Main (Markdown ("### 📊 Monitoring Cycle " ++ str (c + 1)
                                   ++ " of " ++ str t))) /\
    filter is_json shown =
      [Render (Expander "📋 Detailed System Data")
         (Json (PDict [ ("timestamp", PStr timestamp);
                        ("cycle", PInt (c + 1));
                        ("metrics", pyval_of_values values);
                        ("anomalies", anomalies_field report) ]))] /\
    (anomalies_field report = PStr "None detected" <-> report = []) /\
    (report <> [] -> anomalies_field report = pyval_of_anomalies report).
Proof.
  destruct (monitoring_cycle_run timestamp b c t g page)
    as (values & report & g' & Hsim & Hrep & Hrun).
  exists values, report, g', (cycle_body timestamp c t values report).
  split; [exact Hsim |]. split; [exact Hrep |].
  split; [rewrite Hrun; reflexivity |].
  split; [reflexivity |].
  destruct (simulate_behavior_shape c t g) as (cpu & net & file & g'' & Hshape).
  rewrite Hshape in Hsim. injection Hsim as <- _.
  split; [| split].
  - unfold cycle_body. rewrite !filter_app.
    rewrite display_metrics_no_json, display_anomalies_no_json,
      respond_to_anomalies_no_json.
    destruct report; reflexivity.
  - destruct report as [| [k a] report].
    + split; reflexivity.
    + split; discriminate.
  - destruct report; [contradiction | reflexivity].
Qed.

(** ** The summary *)

(** C9.  The run that completes a simulation (running flag set, counter not
    below the total, Reset not pressed) shows the completion banner and one
    "Threats Detected" figure, which is [total_cycles - 1 = 2] in every
    reachable state.  The figure does not come from the cycles: a session in
    which no cycle announced a threat and a session in which two cycles did
    both end with the figure 2. *)
Theorem summary_reports_two_threats (w : World) (inp : Inputs) (c : Z) :
  reachable w ->
  simulation_running (session_state w) = Some true ->
  cycle (session_state w) = Some c ->
  ~ c < 3 ->
  reset_clicked inp = false ->
  (total_cycles (session_state w) = Some 3 /\
   c = 3 /\
   In complete_banner (ui (snd (script_run inp w))) /\
   filter (is_metric "Threats Detected") (ui (snd (script_run inp w))) =
     [Render (Column 1) (Metric "Threats Detected" (PInt (3 - 1)))]) /\
  (let pages := fst (play [start_click; no_click; no_click; no_click]
                          (initial_world calm_stream)) in
   threats_announced pages = 0%nat /\
   filter (is_metric "Threats Detected") (last pages []) =
     [Render (Column 1) (Metric "Threats Detected" (PInt 2))]) /\
  (let pages := fst (play [start_click; no_click; no_click; no_click]
                          (initial_world stormy_stream)) in
   threats_announced pages = 2%nat /\
   filter (is_metric "Threats Detected") (last pages []) =
     [Render (Column 1) (Metric "Threats Detected" (PInt 2))]).
Proof.
  intros Hreach Hrun Hcycle Hge Hreset.
  destruct (reachable_ok w Hreach) as (b & c' & Hs & Hc).
  destruct w as [s g page]. cbn [session_state] in *. subst s.
  cbn [simulation_running cycle total_cycles] in *.
  injection Hrun as ->. injection Hcycle as ->.
  split; [| split; vm_compute; split; reflexivity].
  split; [reflexivity |]. split; [lia |].
  rewrite script_run_running_done by assumption.
  cbn [snd ui]. split.
  - unfold completion_page, completion_body. apply in_or_app. right.
    left. reflexivity.
  - reflexivity.
Qed.

Lemma summary_reports_two_threats_witness :
  filter (is_metric "Threats Detected")
    (ui (snd (script_run no_click
                (snd (script_run no_click
                   (snd (script_run no_click
                      (snd (script_run start_click
                              (initial_world stormy_stream)))))))))) =
  [Render (Column 1) (Metric "Threats Detected" (PInt (3 - 1)))].
Proof.
  refine (proj2 (proj2 (proj2 (proj1
    (summary_reports_two_threats
       (snd (script_run no_click
               (snd (script_run no_click
                       (snd (script_run start_click
                                        (initial_world stormy_stream)))))))
       no_click 3 _ _ _ _ _))))).
  - apply reach_run. apply reach_run. apply reach_first.
  - vm_compute. reflexivity.
  - vm_compute. reflexivity.
  - lia.
  - reflexivity.
Defined.

(** * Further properties of the script *)

(** ** The report and the status boxes *)

Lemma covers_baseline_values values :
  covers_baseline values ->
  exists cpu net file,
    Dict.get values "cpu_usage" = Some cpu /\
    Dict.get values "network_activity" = Some net /\
    Dict.get values "file_access_rate" = Some file.
Proof.
  intros Hcov.
  assert (Hc : Dict.mem values "cpu_usage" = true)
    by (apply Hcov; left; reflexivity).
  assert (Hn : Dict.mem values "network_activity" = true)
    by (apply Hcov; right; left; reflexivity).
  assert (Hf : Dict.mem values "file_access_rate" = true)
    by (apply Hcov; right; right; left; reflexivity).
  apply mem_true_get in Hc, Hn, Hf.
  destruct Hc as [cpu Hc], Hn as [net Hn], Hf as [file Hf].
  exists cpu, net, file. repeat split; assumption.
Qed.

Lemma detect_ok_covers values report :
  detect_anomalies values = Ok report -> covers_baseline values.
Proof.
  intros Hrep k Hin. destruct (Dict.mem values k) eqn:Hm; [reflexivity |].
  exfalso. unfold Dict.mem in Hm.
  destruct (Dict.get values k) eqn:Hget; [discriminate |].
  destruct (detect_loop_missing (Dict.items baseline) values k Hin Hget Dict.empty)
    as (k' & Hraise & _).
  unfold detect_anomalies in Hrep. congruence.
Qed.

(** The report for given values of the three metrics. *)
Lemma detect_anomalies_by_values values cpu net file :
  Dict.get values "cpu_usage" = Some cpu ->
  Dict.get values "network_activity" = Some net ->
  Dict.get values "file_access_rate" = Some file ->
  detect_anomalies values =
  Ok ((if in_range 10 cpu 15 then []
       else [("cpu_usage", mkAnomaly cpu (range_text 10 15))])
      ++ (if in_range 20 net 40 then []
          else [("network_activity", mkAnomaly net (range_text 20 40))])
      ++ (if in_range 0 file 3 then []
          else [("file_access_rate", mkAnomaly file (range_text 0 3))]))%list.
Proof.
  intros Hc Hn Hf. unfold detect_anomalies, Dict.items, baseline.
  cbn [detect_loop]. unfold subscript. rewrite Hc, Hn, Hf.
  destruct (in_range 10 cpu 15), (in_range 20 net 40), (in_range 0 file 3);
    reflexivity.
Qed.

(** X1.  For a sample that has the three baseline metrics, the keys of the
    report are the baseline metrics whose value is out of range, in the
    order of the baseline: cpu_usage, network_activity, file_access_rate. *)
Theorem report_lists_anomalies_in_baseline_order (values : Dict.t Z) :
  covers_baseline values ->
  exists report,
    detect_anomalies values = Ok report /\
    Dict.keys report = filter (is_anomalous values) (Dict.keys baseline).
Proof.
  intros Hcov.
  destruct (covers_baseline_values values Hcov) as (cpu & net & file & Hc & Hn & Hf).
  eexists. split; [exact (detect_anomalies_by_values values cpu net file Hc Hn Hf) |].
  unfold Dict.keys, baseline. cbn [map fst filter].
  unfold is_anomalous. cbn [Dict.get baseline String.eqb Ascii.eqb Bool.eqb].
  rewrite Hc, Hn, Hf.
  destruct (in_range 10 cpu 15), (in_range 20 net 40), (in_range 0 file 3);
    reflexivity.
Qed.

Lemma report_lists_anomalies_in_baseline_order_witness :
  exists report,
    detect_anomalies
      [("file_access_rate", 9); ("network_activity", 30); ("cpu_usage", 50)]
    = Ok report /\
    Dict.keys report =
    filter (is_anomalous
              [("file_access_rate", 9); ("network_activity", 30);
               ("cpu_usage", 50)])
           (Dict.keys baseline).
Proof.
  apply (report_lists_anomalies_in_baseline_order
           [("file_access_rate", 9); ("network_activity", 30);
            ("cpu_usage", 50)]).
  intros k [<- | [<- | [<- | []]]]; reflexivity.
Defined.

(** X2.  When [detect_anomalies] returned a report for a sample,
    [display_metrics] called with that sample and report does not fail: it
    draws three boxes, one per column, for CPU, network and file access in
    this order, and a box is green exactly when the value lies in the
    metric's baseline range and red otherwise. *)
Theorem display_metrics_follows_ranges (values : Dict.t Z)
    (report : Dict.t Anomaly) (w : World) :
  detect_anomalies values = Ok report ->
  exists cpu net file,
    Dict.get values "cpu_usage" = Some cpu /\
    Dict.get values "network_activity" = Some net /\
    Dict.get values "file_access_rate" = Some file /\
    display_metrics values report w =
    (Ok tt,
     add_ui w
       [ Render (Column 1)
           (metric_box (in_range 10 cpu 15) "CPU Usage: " cpu "%");
         Render (Column 2)
           (metric_box (in_range 20 net 40) "Network Activity: " net " Mbps");
         Render (Column 3)
           (metric_box (in_range 0 file 3) "File Access Rate: " file "/sec") ]).
Proof.
  intros Hrep.
  destruct (covers_baseline_values values (detect_ok_covers _ _ Hrep))
    as (cpu & net & file & Hc & Hn & Hf).
  exists cpu, net, file. repeat (split; [assumption |]).
  rewrite (detect_anomalies_by_values values cpu net file Hc Hn Hf) in Hrep.
  injection Hrep as <-.
  unfold display_metrics, add_ui, metric_box, subscript.
  destruct (in_range 10 cpu 15), (in_range 20 net 40), (in_range 0 file 3);
    cbn [app Dict.mem Dict.get String.eqb Ascii.eqb Bool.eqb];
    unfold_script; rewrite Hc; cbn [ui session_state random];
    rewrite Hn; cbn [ui session_state random];
    rewrite Hf; cbn [ui session_state random];
    repeat rewrite <- app_assoc; reflexivity.
Qed.

Lemma display_metrics_follows_ranges_witness :
  exists cpu net file,
    Dict.get (sample_of 9 30 3) "cpu_usage" = Some cpu /\
    Dict.get (sample_of 9 30 3) "network_activity" = Some net /\
    Dict.get (sample_of 9 30 3) "file_access_rate" = Some file /\
    display_metrics (sample_of 9 30 3)
      [("cpu_usage", mkAnomaly 9 "10-15")] (initial_world stormy_stream) =
    (Ok tt,
     add_ui (initial_world stormy_stream)
       [ Render (Column 1)
           (metric_box (in_range 10 cpu 15) "CPU Usage: " cpu "%");
         Render (Column 2)
           (metric_box (in_range 20 net 40) "Network Activity: " net " Mbps");
         Render (Column 3)
           (metric_box (in_range 0 file 3) "File Access Rate: " file "/sec") ]).
Proof.
  apply (display_metrics_follows_ranges (sample_of 9 30 3)
           [("cpu_usage", mkAnomaly 9 "10-15")] (initial_world stormy_stream)).
  reflexivity.
Defined.



(** ** What a monitoring run shows *)

Lemma simulate_behavior_sample cycle total g :
  exists cpu net file g',
    simulate_behavior cycle total g = (sample_of cpu net file, g').
Proof. exact (simulate_behavior_shape cycle total g). Qed.

Lemma detect_anomalies_sample cpu net file :
  detect_anomalies (sample_of cpu net file) =
  Ok ((if in_range 10 cpu 15 then []
       else [("cpu_usage", mkAnomaly cpu (range_text 10 15))])
      ++ (if in_range 20 net 40 then []
          else [("network_activity", mkAnomaly net (range_text 20 40))])
      ++ (if in_range 0 file 3 then []
          else [("file_access_rate", mkAnomaly file (range_text 0 3))]))%list.
Proof. apply detect_anomalies_by_values; reflexivity. Qed.

Lemma total_sleep_app page page' :
  total_sleep (page ++ page') = total_sleep page + total_sleep page'.
Proof.
  induction page as [| [place what | n] page IH]; cbn [app total_sleep fold_right].
  - reflexivity.
  - exact IH.
  - fold (total_sleep (page ++ page')). fold (total_sleep page). lia.
Qed.

Lemma display_metrics_quiet cpu net file report :
  existsb is_threat_alert
    (output (display_metrics (sample_of cpu net file) report)) = false /\
  total_sleep (output (display_metrics (sample_of cpu net file) report)) = 0.
Proof.
  unfold output, display_metrics, initial_world, sample_of.
  destruct (Dict.mem report "cpu_usage"), (Dict.mem report "network_activity"),
    (Dict.mem report "file_access_rate"); split; reflexivity.
Qed.

Lemma display_anomalies_quiet report :
  existsb is_threat_alert (output (display_anomalies report)) = false /\
  total_sleep (output (display_anomalies report)) = 0.
Proof. destruct report as [| [k a] report]; split; reflexivity. Qed.

Lemma respond_to_anomalies_alert report :
  existsb is_threat_alert (output (respond_to_anomalies report)) =
    Dict.truthy report /\
  total_sleep (output (respond_to_anomalies report)) =
    if Dict.truthy report then 6 else 2.
Proof. destruct report as [| [k a] report]; split; reflexivity. Qed.

Lemma cycle_page_alert inp b c t cpu net file report :
  existsb is_threat_alert
    (cycle_page inp b c t (sample_of cpu net file) report) = Dict.truthy report.
Proof.
  unfold cycle_page, cycle_body, page_header. rewrite !existsb_app.
  rewrite (proj1 (display_metrics_quiet _ _ _ _)),
    (proj1 (display_anomalies_quiet _)),
    (proj1 (respond_to_anomalies_alert _)).
  cbn [existsb is_threat_alert orb]. rewrite orb_false_r. reflexivity.
Qed.

Lemma cycle_page_sleep inp b c t cpu net file report :
  total_sleep (cycle_page inp b c t (sample_of cpu net file) report) =
  if Dict.truthy report then 7 else 3.
Proof.
  unfold cycle_page, cycle_body, page_header. rewrite !total_sleep_app.
  rewrite (proj2 (display_metrics_quiet _ _ _ _)),
    (proj2 (display_anomalies_quiet _)),
    (proj2 (respond_to_anomalies_alert _)).
  cbn [total_sleep fold_right]. destruct (Dict.truthy report); reflexivity.
Qed.

Lemma some_out_of_range_iff cpu net file :
  (exists k low high v,
     In (k, (low, high)) (Dict.items baseline) /\
     Dict.get (sample_of cpu net file) k = Some v /\
     (v < low \/ high < v))
  <-> in_range 10 cpu 15 && in_range 20 net 40 && in_range 0 file 3 = false.
Proof.
  split.
  - intros (k & low & high & v & Hin & Hget & Hout).
    apply in_range_false_iff in Hout.
    destruct Hin as [H | [H | [H | []]]]; injection H as <- <- <-;
      cbn in Hget; injection Hget as <-; rewrite Hout;
      rewrite ?andb_false_r; reflexivity.
  - intros H. apply andb_false_iff in H. destruct H as [H | H].
    + apply andb_false_iff in H. destruct H as [H | H].
      * exists "cpu_usage", 10, 15, cpu.
        split; [left; reflexivity |]. split; [reflexivity |].
        apply in_range_false_iff. exact H.
      * exists "network_activity", 20, 40, net.
        split; [right; left; reflexivity |]. split; [reflexivity |].
        apply in_range_false_iff. exact H.
    + exists "file_access_rate", 0, 3, file.
      split; [right; right; left; reflexivity |]. split; [reflexivity |].
      apply in_range_false_iff. exact H.
Qed.

(** The page of a run without Reset from a running session with the
    counter below the total, with the sample and the report spelled out. *)
Lemma running_page inp c t g page :
  reset_clicked inp = false -> c < t ->
  exists cpu net file g' report,
    simulate_behavior c t g = (sample_of cpu net file, g') /\
    detect_anomalies (sample_of cpu net file) = Ok report /\
    Dict.truthy report =
      negb (in_range 10 cpu 15 && in_range 20 net 40 && in_range 0 file 3) /\
    script_run inp (mkWorld (mkSession (Some true) (Some c) (Some t)) g page) =
      (Raise RerunException,
       mkWorld (mkSession (Some true) (Some (c + 1)) (Some t)) g'
               (cycle_page inp true c t (sample_of cpu net file) report)).
Proof.
  intros Hreset Hlt.
  destruct (script_run_running_below inp c t g page Hreset Hlt)
    as (values & report & g' & Hsim & Hrep & Hrun).
  destruct (simulate_behavior_sample c t g) as (cpu & net & file & g'' & Hshape).
  rewrite Hshape in Hsim. injection Hsim as <- <-.
  exists cpu, net, file, g'', report.
  split; [exact Hshape |]. split; [exact Hrep |]. split; [| exact Hrun].
  rewrite detect_anomalies_sample in Hrep. injection Hrep as <-.
  destruct (in_range 10 cpu 15), (in_range 20 net 40), (in_range 0 file 3);
    reflexivity.
Qed.

(** X4.  In a run that monitors a cycle (simulation running, counter below
    the total, Reset not pressed) the threat alert is on the page exactly
    when some metric of the sample drawn in that run is outside its
    baseline range. *)
Theorem threat_alert_iff_out_of_range (inp : Inputs) (c t : Z)
    (g : RandomState) (page : list UiEvent) :
  reset_clicked inp = false -> c < t ->
  (existsb is_threat_alert
     (ui (snd (script_run inp
                 (mkWorld (mkSession (Some true) (Some c) (Some t)) g page))))
   = true
   <-> exists k low high v,
         In (k, (low, high)) (Dict.items baseline) /\
         Dict.get (fst (simulate_behavior c t g)) k = Some v /\
         (v < low \/ high < v)).
Proof.
  intros Hreset Hlt.
  destruct (running_page inp c t g page Hreset Hlt)
    as (cpu & net & file & g' & report & Hsim & _ & Htruthy & ->).
  rewrite Hsim. cbn [fst snd ui].
  rewrite cycle_page_alert, Htruthy, some_out_of_range_iff.
  destruct (in_range 10 cpu 15 && in_range 20 net 40 && in_range 0 file 3);
    split; (reflexivity || discriminate).
Qed.

Lemma threat_alert_iff_out_of_range_witness :
  existsb is_threat_alert
    (ui (snd (script_run no_click
                (mkWorld (mkSession (Some true) (Some 1) (Some 3))
                         stormy_stream []))))
  = true
  <-> exists k low high v,
        In (k, (low, high)) (Dict.items baseline) /\
        Dict.get (fst (simulate_behavior 1 3 stormy_stream)) k = Some v /\
        (v < low \/ high < v).
Proof.
  apply (threat_alert_iff_out_of_range no_click 1 3 stormy_stream []).
  - reflexivity.
  - lia.
Defined.

(** X5.  A run that monitors a cycle sleeps for 3 seconds in all when it
    shows no threat alert and for 7 seconds when it shows one (four response
    steps of one second each come on top). *)
Theorem monitoring_run_sleep_time (inp : Inputs) (c t : Z)
    (g : RandomState) (page : list UiEvent) :
  reset_clicked inp = false -> c < t ->
  total_sleep
    (ui (snd (script_run inp
                (mkWorld (mkSession (Some true) (Some c) (Some t)) g page))))
  = if existsb is_threat_alert
         (ui (snd (script_run inp
                     (mkWorld (mkSession (Some true) (Some c) (Some t)) g page))))
    then 7 else 3.
Proof.
  intros Hreset Hlt.
  destruct (running_page inp c t g page Hreset Hlt)
    as (cpu & net & file & g' & report & _ & _ & _ & ->).
  cbn [snd ui]. rewrite cycle_page_alert. apply cycle_page_sleep.
Qed.

Lemma monitoring_run_sleep_time_witness :
  total_sleep
    (ui (snd (script_run no_click
                (mkWorld (mkSession (Some true) (Some 0) (Some 3))
                         calm_stream []))))
  = if existsb is_threat_alert
         (ui (snd (script_run no_click
                     (mkWorld (mkSession (Some true) (Some 0) (Some 3))
                              calm_stream []))))
    then 7 else 3.
Proof.
  apply (monitoring_run_sleep_time no_click 0 3 calm_stream []).
  - reflexivity.
  - lia.
Defined.

(** ** Buttons and idle runs *)

(** X6.  While the simulation is running the Start button is disabled: a
    run in which it is reported as pressed is the same run, to the last
    event, as one in which it is not. *)
Theorem start_ignored_while_running (inp : Inputs) (w : World) :
  simulation_running (session_state w) = Some true ->
  script_run inp w =
  script_run (mkInputs false (reset_clicked inp) (now inp)) w.
Proof.
  destruct w as [[r c t] g page]. cbn [session_state simulation_running].
  intros ->. destruct inp as [[|] reset time];
    unfold script_run, run_simulation; step_script; reflexivity.
Qed.

Lemma start_ignored_while_running_witness :
  script_run start_click
    (mkWorld (mkSession (Some true) (Some 1) (Some 3)) stormy_stream []) =
  script_run (mkInputs false (reset_clicked start_click) (now start_click))
    (mkWorld (mkSession (Some true) (Some 1) (Some 3)) stormy_stream []).
Proof.
  apply (start_ignored_while_running start_click
           (mkWorld (mkSession (Some true) (Some 1) (Some 3)) stormy_stream [])).
  reflexivity.
Defined.

(** X7.  Pressing Start in an idle session (Reset not pressed, total above
    zero) discards the counter left by the previous simulation: the same run
    monitors cycle 0, with the sample drawn for counter 0, and leaves the
    simulation running with the counter at 1.  The first run of a browser
    session does the same with a total of 3. *)
Theorem start_restarts_from_zero (inp : Inputs) (c t : Z) (g : RandomState)
    (page : list UiEvent) :
  start_clicked inp = true -> reset_clicked inp = false -> 0 < t ->
  (exists values report g',
     simulate_behavior 0 t g = (values, g') /\
     detect_anomalies values = Ok report /\
     script_run inp (mkWorld (mkSession (Some false) (Some c) (Some t)) g page) =
       (Raise RerunException,
        mkWorld (mkSession (Some true) (Some 1) (Some t)) g'
                (cycle_page inp false 0 t values report))) /\
  (exists values report g',
     simulate_behavior 0 3 g = (values, g') /\
     detect_anomalies values = Ok report /\
     script_run inp (mkWorld empty_session g page) =
       (Raise RerunException,
        mkWorld (mkSession (Some true) (Some 1) (Some 3)) g'
                (cycle_page inp false 0 3 values report))).
Proof.
  intros Hstart Hreset Ht.
  assert (Hidle : forall c' t', 0 < t' ->
            exists values report g',
              simulate_behavior 0 t' g = (values, g') /\
              detect_anomalies values = Ok report /\
              script_run inp
                (mkWorld (mkSession (Some false) (Some c') (Some t')) g page) =
              (Raise RerunException,
               mkWorld (mkSession (Some true) (Some 1) (Some t')) g'
                       (cycle_page inp false 0 t' values report))).
  { intros c' t' Ht'. rewrite script_run_dispatch, Hreset.
    unfold counter_at_dispatch, starts. rewrite Hstart.
    cbn [andb negb orb]. cbv zeta. apply Z.ltb_lt in Ht'. rewrite Ht'.
    exact (monitoring_cycle_run (now inp) (Some true) 0 t' g
             (page_header inp false)). }
  split; [exact (Hidle c t Ht) |].
  rewrite script_run_first. apply Hidle. lia.
Qed.

Lemma start_restarts_from_zero_witness :
  exists values report g',
    simulate_behavior 0 3 calm_stream = (values, g') /\
    detect_anomalies values = Ok report /\
    script_run start_click
      (mkWorld (mkSession (Some false) (Some 3) (Some 3)) calm_stream []) =
      (Raise RerunException,
       mkWorld (mkSession (Some true) (Some 1) (Some 3)) g'
               (cycle_page start_click false 0 3 values report)).
Proof.
  refine (proj1 (start_restarts_from_zero start_click 3 3 calm_stream [] _ _ _)).
  - reflexivity.
  - reflexivity.
  - lia.
Defined.

(** X8.  A run of an idle session in which no button was pressed ends
    normally, draws the header and the information page, and leaves the
    session state and the random generator exactly as they were, whatever
    counter and total the session holds. *)
Theorem idle_run_changes_nothing (timestamp : string) (c t : option Z)
    (g : RandomState) (page : list UiEvent) :
  script_run (mkInputs false false timestamp)
    (mkWorld (mkSession (Some false) c t) g page) =
  (Ok tt,
   mkWorld (mkSession (Some false) c t) g
           (page_header (mkInputs false false timestamp) false
            ++ output about_page)%list).
Proof.
  unfold script_run, run_simulation, page_header. step_script.
  rewrite about_page_shows. unfold add_ui.
  cbn [session_state random ui now]. reflexivity.
Qed.

Lemma script_run_ends_cleanly inp b c t g page :
  ends_cleanly
    (script_run inp (mkWorld (mkSession (Some b) (Some c) (Some t)) g page)).
Proof.
  rewrite script_run_dispatch. unfold ends_cleanly.
  destruct (reset_clicked inp); [left; reflexivity |].
  cbv zeta. destruct (b || starts inp b) eqn:Hrun.
  - destruct (counter_at_dispatch inp b c <? t)%Z.
    + destruct (monitoring_cycle_run (now inp) (Some true)
                  (counter_at_dispatch inp b c) t g (page_header inp b))
        as (values & report & g' & _ & _ & ->).
      left. reflexivity.
    + rewrite simulation_complete_run. right. split; reflexivity.
  - rewrite about_page_shows. right. split; reflexivity.
Qed.

(** X9.  A run of the page never stops with KeyError or with a missing
    session attribute, neither the first run of a browser session nor any
    later one: it ends with the rerun request, or it ends normally, and then
    the simulation is stopped. *)
Theorem run_ends_with_rerun_or_stopped (inp : Inputs) :
  (forall g page, ends_cleanly (script_run inp (mkWorld empty_session g page))) /\
  (forall w, reachable w -> ends_cleanly (script_run inp w)).
Proof.
  split.
  - intros g page. rewrite script_run_first. apply script_run_ends_cleanly.
  - intros w Hreach. destruct (reachable_ok w Hreach) as (b & c & Hs & _).
    destruct w as [s g page]. cbn [session_state] in Hs. subst s.
    apply script_run_ends_cleanly.
Qed.

Lemma run_ends_with_rerun_or_stopped_witness :
  ends_cleanly
    (script_run no_click
       (snd (script_run start_click (initial_world stormy_stream)))).
Proof.
  apply (proj2 (run_ends_with_rerun_or_stopped no_click)).
  apply reach_first.
Defined.

(** ** The generator within a cycle *)




(** X11.  On a cycle other than the last every combination of a cpu_usage
    in 5..45, a network_activity in 10..50 and a file_access_rate in 0..7
    is the sample for some state of the generator: the three metrics are
    drawn independently. *)
Theorem other_cycle_every_combination (cycle total cpu net file : Z) :
  cycle <> total - 1 ->
  5 <= cpu <= 45 -> 10 <= net <= 50 -> 0 <= file <= 7 ->
  exists g, fst (simulate_behavior cycle total g) = sample_of cpu net file.
Proof.
  intros Hne Hcpu Hnet Hfile.
  exists (fun n => match n with
                   | O => cpu - 5
                   | S O => net - 10
                   | _ => file
                   end).
  rewrite (simulate_behavior_other _ _ _ Hne).
  unfold randint, sample_of. cbn [fst snd].
  change (45 - 5 + 1) with 41. change (50 - 10 + 1) with 41.
  change (7 - 0 + 1) with 8.
  rewrite !Z.mod_small by lia.
  repeat f_equal; lia.
Qed.

Lemma other_cycle_every_combination_witness :
  exists g, fst (simulate_behavior 1 3 g) = sample_of 45 10 7.
Proof.
  apply (other_cycle_every_combination 1 3 45 10 7); lia.
Defined.

(** ** Whole simulations *)

Lemma next_session_shape inp b c t :
  exists b' c', next_session inp b c t = mkSession (Some b') (Some c') (Some t).
Proof.
  unfold next_session.
  destruct (reset_clicked inp); [do 2 eexists; reflexivity |].
  destruct (b || starts inp b);
    [destruct (counter_at_dispatch inp b c <? t)%Z |];
    do 2 eexists; reflexivity.
Qed.

Lemma play_session inputs :
  forall w b c t,
    session_state w = mkSession (Some b) (Some c) (Some t) ->
    session_state (snd (play inputs w)) = sessions_after inputs (session_state w).
Proof.
  induction inputs as [| inp inputs IH]; intros w b c t Hs.
  - reflexivity.
  - cbn [play]. destruct w as [s g page]. cbn [session_state] in Hs. subst s.
    cbn [session_state sessions_after].
    pose proof (script_run_session inp b c t g page) as Hnext.
    destruct (next_session_shape inp b c t) as (b' & c' & Hshape).
    rewrite Hshape in Hnext.
    specialize (IH _ b' c' t Hnext). rewrite Hnext, <- Hshape in IH.
    destruct (play inputs
                (snd (script_run inp
                        (mkWorld (mkSession (Some b) (Some c) (Some t)) g page))))
      as [pages w''].
    exact IH.
Qed.

(** X12.  A simulation that is running with the counter at [c] in a
    reachable state and is left alone (no button pressed) stops after
    [4 - c] further runs, at most four, with the counter at 3; one run
    earlier it is still running. *)
Theorem running_simulation_completes (w : World) (c : Z) :
  reachable w ->
  simulation_running (session_state w) = Some true ->
  cycle (session_state w) = Some c ->
  (Z.to_nat (4 - c) <= 4)%nat /\
  session_state (snd (play (repeat no_click (Z.to_nat (4 - c))) w)) =
    mkSession (Some false) (Some 3) (Some 3) /\
  simulation_running
    (session_state (snd (play (repeat no_click (Z.to_nat (4 - c) - 1)) w))) =
    Some true.
Proof.
  intros Hreach Hrun Hcycle.
  destruct (reachable_ok w Hreach) as (b & c' & Hs & Hc).
  rewrite Hs in Hrun, Hcycle. cbn [simulation_running cycle] in Hrun, Hcycle.
  injection Hrun as ->. injection Hcycle as ->.
  rewrite !(play_session _ w true c 3 Hs), Hs.
  assert (Hcases : c = 0 \/ c = 1 \/ c = 2 \/ c = 3) by lia.
  destruct Hcases as [-> | [-> | [-> | ->]]];
    (split; [vm_compute; lia | split; reflexivity]).
Qed.

Lemma running_simulation_completes_witness :
  session_state
    (snd (play (repeat no_click (Z.to_nat (4 - 1)))
               (snd (script_run start_click (initial_world stormy_stream))))) =
  mkSession (Some false) (Some 3) (Some 3).
Proof.
  refine (proj1 (proj2 (running_simulation_completes
                          (snd (script_run start_click
                                  (initial_world stormy_stream))) 1 _ _ _))).
  - apply reach_first.
  - vm_compute. reflexivity.
  - vm_compute. reflexivity.
Defined.





(** ** Agreement of the parts of a monitoring page *)

(** X14.  On the page of a run that monitors a cycle the three displays
    agree: the number of red status boxes equals the number of rows of the
    anomaly table and the number of entries of the report, and the notice
    that all systems are normal is shown exactly when the threat alert is
    not. *)
Theorem monitoring_page_is_consistent (inp : Inputs) (c t : Z)
    (g : RandomState) (page : list UiEvent) :
  reset_clicked inp = false -> c < t ->
  exists report,
    detect_anomalies (fst (simulate_behavior c t g)) = Ok report /\
    let shown :=
      ui (snd (script_run inp
                 (mkWorld (mkSession (Some true) (Some c) (Some t)) g page))) in
    List.length (filter is_red_box shown) = List.length report /\
    table_rows shown = List.length report /\
    existsb is_all_normal shown = negb (existsb is_threat_alert shown).
Proof.
  intros Hreset Hlt.
  destruct (running_page inp c t g page Hreset Hlt)
    as (cpu & net & file & g' & report & Hsim & Hrep & _ & ->).
  rewrite Hsim. cbn [fst snd ui]. exists report. split; [exact Hrep |].
  rewrite detect_anomalies_sample in Hrep. injection Hrep as <-.
  cbv zeta.
  destruct (in_range 10 cpu 15), (in_range 20 net 40), (in_range 0 file 3);
    repeat split; reflexivity.
Qed.

Lemma monitoring_page_is_consistent_witness :
  exists report,
    detect_anomalies (fst (simulate_behavior 0 3 stormy_stream)) = Ok report /\
    let shown :=
      ui (snd (script_run no_click
                 (mkWorld (mkSession (Some true) (Some 0) (Some 3))
                          stormy_stream []))) in
    List.length (filter is_red_box shown) = List.length report /\
    table_rows shown = List.length report /\
    existsb is_all_normal shown = negb (existsb is_threat_alert shown).
Proof.
  apply (monitoring_page_is_consistent no_click 0 3 stormy_stream []).
  - reflexivity.
  - lia.
Defined.
